(** * PyPal chatbot: response engine, name extraction and conversation log

    A shallow embedding of [src/chatbot.py] (class [PyPalChatbot]) and the
    properties of its response engine.

    Text.  A Python [str] is modelled as a list of characters ([list ascii]).
    The embedding covers ASCII text: on characters below 128 the functions
    of module [Py] agree with the methods of Python's [str]; characters from
    128 upwards are treated as uncased, non-alphabetic and non-blank.  The
    emoji of the reply literals are carried as their UTF-8 bytes.  Module
    [Uni] gives the name extraction over any type of characters, with
    Python's character tables as a parameter: the ASCII embedding is one
    instance of it, an excerpt of the tables over code points another.

    Effects.  [random.choice] draws an index, given to the engine as the
    number [r]; [datetime.datetime.now()] reads a clock, given as the
    function [clk] from the rank of the reading within the call to the time
    read; a Python exception is the left summand of [result]. *)

From Stdlib Require Import List Ascii Arith Lia Bool ZArith.
From Stdlib Require String.
Import ListNotations String.StringSyntax.

Open Scope string_scope.
Open Scope list_scope.

(** ** Python strings *)

Module Py.

Definition str := list ascii.

(** A literal. *)
Definition py (s : String.string) : str := String.list_ascii_of_string s.

Definition code (c : ascii) : nat := nat_of_ascii c.

Definition between (lo hi : nat) (c : ascii) : bool :=
  (lo <=? code c) && (code c <=? hi).

(** [str.isspace] on one ASCII character: tab, line feed, vertical tab,
    form feed, carriage return, the four separators 28..31 and the space. *)
Definition is_space (c : ascii) : bool :=
  between 9 13 c || between 28 32 c.

Definition is_upper (c : ascii) : bool := between 65 90 c.
Definition is_lower (c : ascii) : bool := between 97 122 c.
Definition is_alpha (c : ascii) : bool := is_upper c || is_lower c.
Definition is_digit (c : ascii) : bool := between 48 57 c.

Definition lower_char (c : ascii) : ascii :=
  if is_upper c then ascii_of_nat (code c + 32) else c.

Definition upper_char (c : ascii) : ascii :=
  if is_lower c then ascii_of_nat (code c - 32) else c.

(** [s.lower()] *)
Definition lower (s : str) : str := map lower_char s.

(** [s.isalpha()]: false on the empty string. *)
Definition isalpha (s : str) : bool :=
  match s with
  | [] => false
  | _ :: _ => forallb is_alpha s
  end.

(** Removal of the leading characters that satisfy [p]. *)
Fixpoint lstrip_by (p : ascii -> bool) (s : str) : str :=
  match s with
  | [] => []
  | c :: t => if p c then lstrip_by p t else s
  end.

Definition rstrip_by (p : ascii -> bool) (s : str) : str :=
  rev (lstrip_by p (rev s)).

Definition strip_by (p : ascii -> bool) (s : str) : str :=
  rstrip_by p (lstrip_by p s).

(** [s.strip()] *)
Definition strip (s : str) : str := strip_by is_space s.

Definition mem_char (chars : str) (c : ascii) : bool :=
  existsb (Ascii.eqb c) chars.

(** [s.strip(chars)] *)
Definition strip_chars (chars s : str) : str := strip_by (mem_char chars) s.

(** [s.split()]: the maximal runs of non-blank characters. *)
Fixpoint split (s : str) : list str :=
  match s with
  | [] => []
  | c :: t =>
      if is_space c then split t
      else match t with
           | [] => [[c]]
           | d :: _ =>
               if is_space d then [c] :: split t
               else match split t with
                    | w :: ws => (c :: w) :: ws
                    | [] => [[c]]
                    end
           end
  end.

(** [s.startswith(p)] *)
Fixpoint startswith (p s : str) : bool :=
  match p, s with
  | [], _ => true
  | _ :: _, [] => false
  | a :: p', b :: s' => Ascii.eqb a b && startswith p' s'
  end.

(** [p in s] *)
Fixpoint contains (p s : str) : bool :=
  startswith p s ||
  match s with
  | [] => false
  | _ :: t => contains p t
  end.

(** [s.find(p)]: the least index where [p] occurs, [-1] when there is none. *)
Fixpoint find (p s : str) : Z :=
  if startswith p s then 0%Z
  else match s with
       | [] => (-1)%Z
       | _ :: t => let r := find p t in
                   if (r <? 0)%Z then (-1)%Z else (r + 1)%Z
       end.

(** [s[i:]], with Python's reading of a negative index. *)
Definition slice_from (i : Z) (s : str) : str :=
  let n := Z.of_nat (length s) in
  let i' := if (i <? 0)%Z then Z.max 0 (n + i) else i in
  skipn (Z.to_nat i') s.

(** [s.replace(' ', '')] *)
Definition remove_spaces (s : str) : str :=
  filter (fun c => negb (Ascii.eqb c " "%char)) s.

(** [s.title()]: a cased character is upper-cased when the character before
    it is not cased, lower-cased when it is. *)
Fixpoint title_from (prev_cased : bool) (s : str) : str :=
  match s with
  | [] => []
  | c :: t =>
      (if is_alpha c
       then if prev_cased then lower_char c else upper_char c
       else c) :: title_from (is_alpha c) t
  end.

Definition title (s : str) : str := title_from false s.

(** Truth value of a string: [bool(s)]. *)
Definition nonempty (s : str) : bool :=
  match s with [] => false | _ :: _ => true end.

(** Two decimal digits, zero-padded ([%d], [%H], [%M], ...). *)
Definition digit (n : Z) : ascii := ascii_of_nat (48 + Z.to_nat (n mod 10)).

Definition pad2 (n : Z) : str := [digit (n / 10); digit n].

(** Year as [%Y] prints it from 1000 on: four digits. *)
Definition dec4 (n : Z) : str :=
  [digit (n / 1000); digit (n / 100); digit (n / 10); digit n].

End Py.
Import Py.

(** ** Exceptions *)

Inductive exn : Type :=
| IndexError
| OSError (msg : str).

(** [str(e)] *)
Definition exn_text (e : exn) : str :=
  match e with
  | IndexError => py "list index out of range"
  | OSError msg => msg
  end.

Definition result (A : Type) : Type := (exn + A)%type.

Definition ret {A : Type} (a : A) : result A := inr a.
Definition raise {A : Type} (e : exn) : result A := inl e.
Definition bind {A B : Type} (m : result A) (k : A -> result B) : result B :=
  match m with
  | inl e => inl e
  | inr a => k a
  end.

Notation "x <- m ;; k" := (bind m (fun x => k))
  (at level 61, m at next level, right associativity).

(** [l[0]] *)
Definition item0 {A : Type} (l : list A) : result A :=
  match l with
  | [] => raise IndexError
  | a :: _ => ret a
  end.

(** [random.choice(l)] when the generator draws [r]: [IndexError] on an
    empty sequence, otherwise the element of index [r mod len(l)]. *)
Definition random_choice {A : Type} (r : nat) (l : list A) : result A :=
  match l with
  | [] => raise IndexError
  | d :: _ => ret (nth (r mod length l) l d)
  end.

(** ** Clock *)

Record datetime : Type := mkDatetime {
  year : Z; month : Z; day : Z;
  hour : Z; minute : Z; second : Z
}.

(** The values [datetime.datetime.now()] can return, for years that [%Y]
    prints with four digits. *)
Definition valid_datetime (d : datetime) : Prop :=
  (1000 <= year d <= 9999 /\ 1 <= month d <= 12 /\ 1 <= day d <= 31 /\
   0 <= hour d < 24 /\ 0 <= minute d < 60 /\ 0 <= second d < 60)%Z.

Definition month_names : list str :=
  [py "January"; py "February"; py "March"; py "April"; py "May"; py "June";
   py "July"; py "August"; py "September"; py "October"; py "November";
   py "December"].

(** [%B] *)
Definition month_name (m : Z) : str := nth (Z.to_nat (m - 1)) month_names [].

(** [%I] *)
Definition hour12 (h : Z) : Z :=
  if (h mod 12 =? 0)%Z then 12%Z else (h mod 12)%Z.

(** [%p] *)
Definition am_pm (h : Z) : str := if (h <? 12)%Z then py "AM" else py "PM".

(** ** The chatbot object *)

Record PyPalChatbot : Type := mkBot {
  user_name : option str;
  conversation_started : bool;
  log_filename : str
}.

Definition bot_name : str := py "PyPal".

(** State after [__init__]. *)
Definition init (log : str) : PyPalChatbot := mkBot None false log.

(** Truth value of [self.user_name]: [None] and the empty string are false. *)
Definition truthy (o : option str) : bool :=
  match o with
  | None => false
  | Some n => nonempty n
  end.

(** [{self.user_name}] inside an f-string. *)
Definition name_text (o : option str) : str :=
  match o with
  | None => py "None"
  | Some n => n
  end.

(** [{', ' + self.user_name if self.user_name else ''}] *)
Definition name_slot (o : option str) : str :=
  if truthy o then py ", " ++ name_text o else [].

(** [get_current_time], at the clock reading [now]:
    [now.strftime("It's currently %I:%M %p on %B %d, %Y")]. *)
Definition get_current_time (now : datetime) : str :=
  py "It's currently " ++ pad2 (hour12 (hour now)) ++ py ":" ++
  pad2 (minute now) ++ py " " ++ am_pm (hour now) ++ py " on " ++
  month_name (month now) ++ py " " ++ pad2 (day now) ++ py ", " ++
  dec4 (year now).

(** ** Intent detectors *)

Definition greetings : list str :=
  [py "hi"; py "hello"; py "hey"; py "hiya"; py "good morning";
   py "good afternoon"; py "good evening"; py "sup"; py "yo"].

Definition how_are_you_phrases : list str :=
  [py "how are you"; py "how do you do"; py "how are things";
   py "how's it going"; py "how you doing"].

Definition time_keywords : list str :=
  [py "time"; py "clock"; py "what time is it"; py "current time";
   py "time is it"; py "what time"].

Definition goodbye_phrases : list str :=
  [py "bye"; py "goodbye"; py "see you"; py "farewell"; py "exit";
   py "quit"; py "stop"; py "close"; py "end"].

Definition name_patterns : list str :=
  [py "my name is"; py "i'm"; py "i am"; py "call me"; py "name's";
   py "i go by"].

(** [any(p in s for p in phrases)] *)
Definition any_in (phrases : list str) (s : str) : bool :=
  existsb (fun p => contains p s) phrases.

Definition detect_greeting (user_input : str) : bool :=
  let user_input_lower := lower user_input in
  any_in greetings user_input_lower.

Definition detect_how_are_you (user_input : str) : bool :=
  let user_input_lower := lower user_input in
  any_in how_are_you_phrases user_input_lower.

Definition detect_time_request (user_input : str) : bool :=
  let user_input_lower := lower user_input in
  any_in time_keywords user_input_lower.

Definition detect_goodbye (user_input : str) : bool :=
  let user_input_lower := strip (lower user_input) in
  any_in goodbye_phrases user_input_lower.

(** ** Name extraction *)

(** The candidate the loop body computes for one pattern found in
    [user_lower]: the first word after the pattern, without its leading and
    trailing [.,!?]; [None] when nothing but blanks follows the pattern. *)
Definition candidate (pattern user_input user_lower : str)
  : result (option str) :=
  let start_idx := (find pattern user_lower + Z.of_nat (length pattern))%Z in
  let name_part := strip (slice_from start_idx user_input) in
  if nonempty name_part then
    first <- item0 (split name_part) ;;
    ret (Some (strip_chars (py ".,!?") first))
  else ret None.

(** The loop [for pattern in name_patterns]: [Some n] when the body
    returns [n], [None] when the loop runs to its end. *)
Fixpoint scan_patterns (patterns : list str) (user_input user_lower : str)
  : result (option str) :=
  match patterns with
  | [] => ret None
  | pattern :: rest =>
      if contains pattern user_lower then
        c <- candidate pattern user_input user_lower ;;
        match c with
        | Some potential_name =>
            if isalpha potential_name then ret (Some (title potential_name))
            else scan_patterns rest user_input user_lower
        | None => scan_patterns rest user_input user_lower
        end
      else scan_patterns rest user_input user_lower
  end.

(** The test after the loop: a short alphabetic message. *)
Definition short_alpha (user_input : str) : bool :=
  (length (split user_input) <=? 2) && isalpha (remove_spaces user_input).

Definition detect_name_in_message (user_input : str) : result (option str) :=
  let user_input := strip user_input in
  let user_lower := lower user_input in
  found <- scan_patterns name_patterns user_input user_lower ;;
  match found with
  | Some n => ret (Some n)
  | None =>
      if short_alpha user_input then ret (Some (title user_input))
      else ret None
  end.

(** ** Replies *)

Definition name_responses (n : option str) : list str :=
  [py "Nice to meet you, " ++ name_text n ++ py "! 😊 How can I help you today?";
   py "Great to meet you, " ++ name_text n ++ py "! I'm excited to chat with you!";
   py "Hello " ++ name_text n ++ py "! What a lovely name. What would you like to talk about?";
   py "Wonderful, " ++ name_text n ++ py "! Thanks for introducing yourself. How are you doing today?"].

Definition no_name_reply : str :=
  py "I didn't quite catch your name there. That's okay though! What would you like to chat about? You can always tell me your name later! 😊".

Definition goodbye_responses (n : option str) : list str :=
  [py "Goodbye" ++ name_slot n ++ py "! It was wonderful chatting with you! 👋";
   py "See you later" ++ name_slot n ++ py "! Have a fantastic day! 😊";
   py "Bye" ++ name_slot n ++ py "! Thanks for the great conversation!";
   py "Take care" ++ name_slot n ++ py "! Chat with me again anytime!"].

(** The three elements call [get_current_time] one after the other: they
    use the clock readings 0, 1 and 2 of the call. *)
Definition time_responses (n : option str) (clk : nat -> datetime) : list str :=
  [get_current_time (clk 0);
   get_current_time (clk 1) ++ py " ⏰";
   py "Sure thing" ++ name_slot n ++ py "! " ++ get_current_time (clk 2)].

Definition greeting_responses_named (n : option str) : list str :=
  [py "Hello again, " ++ name_text n ++ py "! How can I help you? 😊";
   py "Hi " ++ name_text n ++ py "! Great to hear from you!";
   py "Hey there, " ++ name_text n ++ py "! What's on your mind?";
   py "Hello " ++ name_text n ++ py "! How are you doing today?"].

Definition greeting_responses_plain : list str :=
  [py "Hello there! How can I help you today? 😊";
   py "Hi! Great to meet you! What's on your mind?";
   py "Hey! I'm here and ready to chat!";
   py "Hello! How are you doing today?"].

Definition greeting_responses (n : option str) : list str :=
  if truthy n then greeting_responses_named n else greeting_responses_plain.

Definition how_are_you_responses (n : option str) : list str :=
  [py "I'm doing great, thank you for asking" ++ name_slot n ++ py "! How are you?";
   py "I'm wonderful" ++ name_slot n ++ py "! Thanks for checking in. How about you?";
   py "I'm having a fantastic day" ++ name_slot n ++ py "! How are things with you?";
   py "I'm doing well" ++ name_slot n ++ py "! Ready to help with whatever you need!"].

Definition default_responses_named (n : option str) : list str :=
  [py "That's interesting, " ++ name_text n ++ py "! Tell me more about that.";
   py "I'm not sure I understand, " ++ name_text n ++ py ", but I'm here to listen!";
   py "Hmm, " ++ name_text n ++ py ", I'd love to learn more about what you mean.";
   py "I'm still learning, " ++ name_text n ++ py "! Can you try asking in a different way?";
   py "That's cool, " ++ name_text n ++ py "! What else would you like to talk about?";
   py "I'm here to chat, " ++ name_text n ++ py "! Try asking me about the time, or just say hello!"].

Definition default_responses_plain : list str :=
  [py "That's interesting! Tell me more about that.";
   py "I'm not sure I understand, but I'm here to listen!";
   py "Hmm, I'd love to learn more about what you mean.";
   py "I'm still learning! Can you try asking in a different way?";
   py "That's cool! What else would you like to talk about?";
   py "I'm here to chat! Try asking me about the time, or just say hello!"].

Definition default_responses (n : option str) : list str :=
  if truthy n then default_responses_named n else default_responses_plain.

(** ** The response engine *)

(** The chain [if detect_goodbye ... elif ... else] of [generate_response]:
    the variant list of the first detector that fires. *)
Definition intent_responses (n : option str) (user_input : str)
  (clk : nat -> datetime) : list str :=
  if detect_goodbye user_input then goodbye_responses n
  else if detect_time_request user_input then time_responses n clk
  else if detect_greeting user_input then greeting_responses n
  else if detect_how_are_you user_input then how_are_you_responses n
  else default_responses n.

(** [generate_response(user_input)] on the object [self], when
    [random.choice] draws [r] and the clock reads [clk 0], [clk 1], ...:
    the reply and the object after the call. *)
Definition generate_response (self : PyPalChatbot) (user_input : str)
  (r : nat) (clk : nat -> datetime) : result (str * PyPalChatbot) :=
  if negb (truthy (user_name self)) && negb (conversation_started self) then
    potential_name <- detect_name_in_message user_input ;;
    if truthy potential_name then
      let self := mkBot potential_name true (log_filename self) in
      reply <- random_choice r (name_responses (user_name self)) ;;
      ret (reply, self)
    else
      let self := mkBot (user_name self) true (log_filename self) in
      ret (no_name_reply, self)
  else
    reply <- random_choice r (intent_responses (user_name self) user_input clk) ;;
    ret (reply, self).

(** One turn of a session: the text typed, the draw and the clock. *)
Record turn : Type := mkTurn {
  turn_input : str;
  turn_draw : nat;
  turn_clock : nat -> datetime
}.

(** The object after a sequence of turns. *)
Fixpoint run (self : PyPalChatbot) (turns : list turn) : result PyPalChatbot :=
  match turns with
  | [] => ret self
  | t :: rest =>
      p <- generate_response self (turn_input t) (turn_draw t) (turn_clock t) ;;
      run (snd p) rest
  end.

(** ** Conversation log *)

(** The world outside the object: the files, by path, and what was printed. *)
Record World : Type := mkWorld {
  fs : str -> option str;
  stdout : list str
}.

(** What the operating system does with one [open]-[write]-close. *)
Inductive io_outcome : Type :=
| io_ok
| io_open_error (msg : str)
| io_write_error (msg : str) (written : nat).

Fixpoint str_eqb (a b : str) : bool :=
  match a, b with
  | [], [] => true
  | x :: a', y :: b' => Ascii.eqb x y && str_eqb a' b'
  | _, _ => false
  end.

Definition file_text (w : World) (path : str) : str :=
  match fs w path with
  | Some old => old
  | None => []
  end.

(** The file at [path] grows by [text]; it is created when absent. *)
Definition append_file (path text : str) (w : World) : World :=
  mkWorld (fun p => if str_eqb p path then Some (file_text w path ++ text)
                    else fs w p)
          (stdout w).

(** [print(line)] *)
Definition print (line : str) (w : World) : World :=
  mkWorld (fs w) (stdout w ++ [line]).

(** [with open(path, 'a', encoding='utf-8') as f: f.write(text)]: on an
    error at [open] nothing is written; on an error at the write or the
    close, the first [written] characters of [text] have reached the file. *)
Definition open_append_write (path text : str) (io : io_outcome) (w : World)
  : result unit * World :=
  match io with
  | io_ok => (ret tt, append_file path text w)
  | io_open_error msg => (raise (OSError msg), w)
  | io_write_error msg written =>
      (raise (OSError msg), append_file path (firstn written text) w)
  end.

Definition newline : ascii := ascii_of_nat 10.

(** [now.strftime("%Y-%m-%d %H:%M:%S")] *)
Definition timestamp (now : datetime) : str :=
  dec4 (year now) ++ py "-" ++ pad2 (month now) ++ py "-" ++ pad2 (day now) ++
  py " " ++ pad2 (hour now) ++ py ":" ++ pad2 (minute now) ++ py ":" ++
  pad2 (second now).

(** [f"[{timestamp}] {sender}: {message}\n"] *)
Definition log_entry (now : datetime) (sender message : str) : str :=
  py "[" ++ timestamp now ++ py "] " ++ sender ++ py ": " ++ message ++
  [newline].

(** [log_message(sender, message)] when the clock reads [now] and the
    operating system answers [io]: the object and the world after the
    call.  The handler [except Exception as e] catches every [exn]. *)
Definition log_message (self : PyPalChatbot) (sender message : str)
  (now : datetime) (io : io_outcome) (w : World)
  : result (PyPalChatbot * World) :=
  let entry := log_entry now sender message in
  match open_append_write (log_filename self) entry io w with
  | (inr _, w') => ret (self, w')
  | (inl e, w') => ret (self, print (py "Error logging message: " ++ exn_text e) w')
  end.

(** [start_conversation], without its display: the welcome that is drawn
    and the request for the name, on two lines, go to the log. *)
Definition welcome_messages : list str :=
  [py "Hello! I'm " ++ bot_name ++ py ", your friendly AI assistant! 😊";
   py "Hi there! " ++ bot_name ++ py " here, ready to help and chat!";
   py "Welcome! I'm " ++ bot_name ++ py ", your personal chatbot companion!"].

Definition name_request : str :=
  py "What's your name? I'd love to get to know you better!".

Definition start_conversation (self : PyPalChatbot) (r : nat)
  (now : datetime) (io : io_outcome) (w : World)
  : result (PyPalChatbot * World) :=
  welcome <- random_choice r welcome_messages ;;
  let full_welcome := welcome ++ [newline] ++ name_request in
  log_message self bot_name full_welcome now io w.

(** ** Vocabulary of the specification *)

(** The intents, and the one the chain of [generate_response] resolves an
    input to after the first turn. *)
Inductive intent : Type :=
| Farewell | TimeQuery | Greeting | HowAreYou | Fallback.

Definition intent_of (user_input : str) : intent :=
  if detect_goodbye user_input then Farewell
  else if detect_time_request user_input then TimeQuery
  else if detect_greeting user_input then Greeting
  else if detect_how_are_you user_input then HowAreYou
  else Fallback.

(** The first detector, in the order farewell, time query, greeting, "how
    are you", whose phrase set has a member inside the lower-cased input. *)
Definition first_matching_intent (user_input : str) : intent :=
  let l := lower user_input in
  if any_in goodbye_phrases l then Farewell
  else if any_in time_keywords l then TimeQuery
  else if any_in greetings l then Greeting
  else if any_in how_are_you_phrases l then HowAreYou
  else Fallback.

Definition variants (i : intent) (n : option str) (clk : nat -> datetime)
  : list str :=
  match i with
  | Farewell => goodbye_responses n
  | TimeQuery => time_responses n clk
  | Greeting => greeting_responses n
  | HowAreYou => how_are_you_responses n
  | Fallback => default_responses n
  end.

(** Regular expressions, for the shape of the time reply. *)
Inductive regex : Type :=
| Lit (s : str)
| Class (p : ascii -> bool)
| Seq (r1 r2 : regex)
| Alt (r1 r2 : regex)
| Plus (r : regex).

Inductive matches : regex -> str -> Prop :=
| m_lit s : matches (Lit s) s
| m_class p c : p c = true -> matches (Class p) [c]
| m_seq r1 r2 s1 s2 :
    matches r1 s1 -> matches r2 s2 -> matches (Seq r1 r2) (s1 ++ s2)
| m_alt_l r1 r2 s : matches r1 s -> matches (Alt r1 r2) s
| m_alt_r r1 r2 s : matches r2 s -> matches (Alt r1 r2) s
| m_plus_one r s : matches r s -> matches (Plus r) s
| m_plus_more r s1 s2 :
    matches r s1 -> matches (Plus r) s2 -> matches (Plus r) (s1 ++ s2).

(** [r{n}] *)
Fixpoint times (n : nat) (r : regex) : regex :=
  match n with
  | 0 => Lit []
  | S n' => Seq r (times n' r)
  end.

(** [\d] and [\w] *)
Definition re_d : regex := Class is_digit.
Definition is_word (c : ascii) : bool :=
  is_alpha c || is_digit c || Ascii.eqb c "_"%char.
Definition re_w : regex := Class is_word.

Definition seqs (rs : list regex) : regex := fold_right Seq (Lit []) rs.

(** [It's currently \d{2}:\d{2} (AM|PM) on \w+ \d{1,2}, \d{4}] *)
Definition time_pattern : regex :=
  seqs [Lit (py "It's currently "); times 2 re_d; Lit (py ":"); times 2 re_d;
        Lit (py " "); Alt (Lit (py "AM")) (Lit (py "PM")); Lit (py " on ");
        Plus re_w; Lit (py " "); Alt (times 1 re_d) (times 2 re_d);
        Lit (py ", "); times 4 re_d].

(** The wrappings of the time text [t] in the three time variants. *)
Definition time_wrappings (n : option str) (t : str) : list str :=
  [t; t ++ py " ⏰"; py "Sure thing" ++ name_slot n ++ py "! " ++ t].

(** The text that follows the first occurrence of [p], where [lowered] is
    the lower-cased message and [original] the message itself, read in
    step. *)
Fixpoint after_phrase (p lowered original : str) : option str :=
  if startswith p lowered then Some (skipn (length p) original)
  else match lowered, original with
       | _ :: l', _ :: o' => after_phrase p l' o'
       | _, _ => None
       end.

(** The first whitespace-delimited word of the trimmed text. *)
Definition first_word (text : str) : option str :=
  match split (strip text) with
  | [] => None
  | w :: _ => Some w
  end.

(** The candidate of the lead-in phrase [p] in the trimmed message [u], and
    whether it is accepted: the first word after the first occurrence of
    [p], with [.,!?] taken off both its ends, if it is alphabetic. *)
Definition lead_in_candidate (p u : str) : option str :=
  match after_phrase p (lower u) u with
  | None => None
  | Some rest =>
      match first_word rest with
      | None => None
      | Some w =>
          let c := strip_chars (py ".,!?") w in
          if isalpha c then Some c else None
      end
  end.

(** The rule of the specification, word for word: the first lead-in phrase
    of the list found in the message decides alone, and only trailing
    [.,!?] are taken off its word. *)
Definition claimed_lead_in_name (user_input : str) : option str :=
  let u := strip user_input in
  match List.find (fun p => contains p (lower u)) name_patterns with
  | None => None
  | Some p =>
      match after_phrase p (lower u) u with
      | None => None
      | Some rest =>
          match first_word rest with
          | None => None
          | Some w =>
              let c := rstrip_by (mem_char (py ".,!?")) w in
              if isalpha c then Some (title c) else None
          end
      end
  end.

(** A stored name: not empty, at most two words, letters and spaces only,
    each word an upper-case letter followed by lower-case letters. *)
Definition is_title_word (w : str) : bool :=
  match w with
  | [] => false
  | c :: t => is_upper c && forallb is_lower t
  end.

Definition letter_or_space (c : ascii) : bool :=
  is_alpha c || Ascii.eqb c " "%char.

Definition valid_name (n : str) : bool :=
  nonempty n && (length (split n) <=? 2) && isalpha (remove_spaces n) &&
  forallb letter_or_space n && forallb is_title_word (split n).

Definition name_ok (self : PyPalChatbot) : Prop :=
  match user_name self with
  | None => True
  | Some n => valid_name n = true
  end.

(** Number of line ends in a text. *)
Definition count_newlines (s : str) : nat :=
  length (filter (Ascii.eqb newline) s).

(** ** The window and the session *)

(** The widgets the object writes to: the text of the chat display and
    its state, the text of the input field, the status line and the
    warning boxes shown, as (title, text). *)
Inductive widget_state : Type :=
| NORMAL
| DISABLED.

Record Gui : Type := mkGui {
  chat_display : str;
  chat_state : widget_state;
  entry_text : str;
  status_label : str;
  warnings : list (str * str)
}.

(** [chat_display.config(state=st)] *)
Definition config_state (st : widget_state) (g : Gui) : Gui :=
  mkGui (chat_display g) st (entry_text g) (status_label g) (warnings g).

(** [chat_display.insert(tk.END, text)]: a disabled text widget ignores it. *)
Definition insert_end (text : str) (g : Gui) : Gui :=
  match chat_state g with
  | NORMAL =>
      mkGui (chat_display g ++ text) NORMAL (entry_text g) (status_label g)
            (warnings g)
  | DISABLED => g
  end.

(** [now.strftime("%H:%M")] *)
Definition clock_text (now : datetime) : str :=
  pad2 (hour now) ++ py ":" ++ pad2 (minute now).

(** The line [display_message] builds: the robot for the bot's name, the
    person for every other sender. *)
Definition formatted_message (sender message : str) (now : datetime) : str :=
  let timestamp := clock_text now in
  if str_eqb sender bot_name
  then py "🤖 " ++ sender ++ py " [" ++ timestamp ++ py "]: " ++ message ++
       [newline; newline]
  else py "👤 " ++ sender ++ py " [" ++ timestamp ++ py "]: " ++ message ++
       [newline; newline].

(** [display_message(sender, message)] when the clock reads [now]. *)
Definition display_message (sender message : str) (now : datetime) (g : Gui)
  : Gui :=
  let g := config_state NORMAL g in
  let g := insert_end (formatted_message sender message now) g in
  config_state DISABLED g.

(** The host of a session: the world of the log and the window. *)
Record Host : Type := mkHost {
  world : World;
  gui : Gui
}.

(** What one [handle_send] meets: the draw, the clock readings of its two
    displays, two log entries, the engine and the status line, and the
    outcomes of its two writes. *)
Record send_env : Type := mkSendEnv {
  send_draw : nat;
  now_display_user : datetime;
  now_log_user : datetime;
  io_log_user : io_outcome;
  engine_clock : nat -> datetime;
  now_display_bot : datetime;
  now_log_bot : datetime;
  io_log_bot : io_outcome;
  now_status : datetime
}.

(** [display_name = self.user_name if self.user_name else "You"] *)
Definition display_name (self : PyPalChatbot) : str :=
  if truthy (user_name self) then name_text (user_name self) else py "You".

(** [now.strftime('%H:%M:%S')] *)
Definition clock_text_seconds (now : datetime) : str :=
  pad2 (hour now) ++ py ":" ++ pad2 (minute now) ++ py ":" ++ pad2 (second now).

(** [handle_send()]: the object and the host after the call. *)
Definition handle_send (self : PyPalChatbot) (e : send_env) (h : Host)
  : result (PyPalChatbot * Host) :=
  let user_message := strip (entry_text (gui h)) in
  if negb (nonempty user_message) then
    let g := gui h in
    ret (self,
         mkHost (world h)
                (mkGui (chat_display g) (chat_state g) (entry_text g)
                       (status_label g)
                       (warnings g ++
                        [(py "Empty Message",
                          py "Please type a message before sending!")])))
  else
    let name := display_name self in
    let g := display_message name user_message (now_display_user e) (gui h) in
    p <- log_message self name user_message (now_log_user e) (io_log_user e)
                     (world h) ;;
    let '(self, w) := p in
    q <- generate_response self user_message (send_draw e) (engine_clock e) ;;
    let '(response, self) := q in
    let g := display_message bot_name response (now_display_bot e) g in
    p <- log_message self bot_name response (now_log_bot e) (io_log_bot e) w ;;
    let '(self, w) := p in
    let g := mkGui (chat_display g) (chat_state g) []
                   (py "Last message sent at " ++
                    clock_text_seconds (now_status e))
                   (warnings g) in
    ret (self, mkHost w g).

(** [now.strftime("%Y-%m-%d")] *)
Definition date_text (now : datetime) : str :=
  dec4 (year now) ++ py "-" ++ pad2 (month now) ++ py "-" ++ pad2 (day now).

(** [setup_logging()]: [dir_exists] is the answer of
    [os.path.exists('chat_logs')], [makedirs] the error of [os.makedirs]
    if it raises one, [today] and [now] the two clock readings. *)
Definition setup_logging (self : PyPalChatbot) (dir_exists : bool)
  (makedirs : option str) (today now : datetime) (io : io_outcome) (w : World)
  : result (PyPalChatbot * World) :=
  _ <- (if negb dir_exists
        then match makedirs with
             | None => ret tt
             | Some msg => raise (OSError msg)
             end
        else ret tt) ;;
  let current_date := date_text today in
  let self :=
    mkBot (user_name self) (conversation_started self)
          (py "chat_logs/pypal_conversation_" ++ current_date ++ py ".log") in
  log_message self (py "SYSTEM") (bot_name ++ py " chatbot session started")
              now io w.

(** ** Name extraction over any characters *)

(** Text of ASCII characters: every code below 128. *)
Definition ascii_text (s : str) : bool :=
  forallb (fun c => code c <? 128) s.

(** [detect_name_in_message] once more, over any type of characters: what
    Python takes from its character tables is a parameter, the record
    [chars].  [str.lower] and [str.title] are functions of the whole text,
    since outside ASCII they can change its length. *)
Module Uni.

Record chars (A : Type) : Type := mkChars {
  ch_eqb : A -> A -> bool;
  ch_of_ascii : ascii -> A;
  ch_isspace : A -> bool;
  ch_isalpha : A -> bool;
  str_lower : list A -> list A;
  str_title : list A -> list A
}.

Arguments mkChars {A}.
Arguments ch_eqb {A}.
Arguments ch_of_ascii {A}.
Arguments ch_isspace {A}.
Arguments ch_isalpha {A}.
Arguments str_lower {A}.
Arguments str_title {A}.

Section Generic.

Context {A : Type} (db : chars A).

(** A literal of the source. *)
Definition lit (s : str) : list A := map (ch_of_ascii db) s.

Fixpoint lstrip_by (p : A -> bool) (s : list A) : list A :=
  match s with
  | [] => []
  | c :: t => if p c then lstrip_by p t else s
  end.

Definition rstrip_by (p : A -> bool) (s : list A) : list A :=
  rev (lstrip_by p (rev s)).

Definition strip_by (p : A -> bool) (s : list A) : list A :=
  rstrip_by p (lstrip_by p s).

Definition strip (s : list A) : list A := strip_by (ch_isspace db) s.

Definition mem_char (chars : list A) (c : A) : bool :=
  existsb (ch_eqb db c) chars.

Definition strip_chars (chars s : list A) : list A :=
  strip_by (mem_char chars) s.

Fixpoint split (s : list A) : list (list A) :=
  match s with
  | [] => []
  | c :: t =>
      if ch_isspace db c then split t
      else match t with
           | [] => [[c]]
           | d :: _ =>
               if ch_isspace db d then [c] :: split t
               else match split t with
                    | w :: ws => (c :: w) :: ws
                    | [] => [[c]]
                    end
           end
  end.

Fixpoint startswith (p s : list A) : bool :=
  match p, s with
  | [], _ => true
  | _ :: _, [] => false
  | a :: p', b :: s' => ch_eqb db a b && startswith p' s'
  end.

Fixpoint contains (p s : list A) : bool :=
  startswith p s ||
  match s with
  | [] => false
  | _ :: t => contains p t
  end.

Fixpoint find (p s : list A) : Z :=
  if startswith p s then 0%Z
  else match s with
       | [] => (-1)%Z
       | _ :: t => let r := find p t in
                   if (r <? 0)%Z then (-1)%Z else (r + 1)%Z
       end.

Definition slice_from (i : Z) (s : list A) : list A :=
  let n := Z.of_nat (length s) in
  let i' := if (i <? 0)%Z then Z.max 0 (n + i) else i in
  skipn (Z.to_nat i') s.

Definition remove_spaces (s : list A) : list A :=
  filter (fun c => negb (ch_eqb db c (ch_of_ascii db " "%char))) s.

Definition isalpha (s : list A) : bool :=
  match s with
  | [] => false
  | _ :: _ => forallb (ch_isalpha db) s
  end.

Definition nonempty (s : list A) : bool :=
  match s with [] => false | _ :: _ => true end.

Definition candidate (pattern user_input user_lower : list A)
  : result (option (list A)) :=
  let start_idx := (find pattern user_lower + Z.of_nat (length pattern))%Z in
  let name_part := strip (slice_from start_idx user_input) in
  if nonempty name_part then
    first <- item0 (split name_part) ;;
    ret (Some (strip_chars (lit (py ".,!?")) first))
  else ret None.

Fixpoint scan_patterns (patterns : list (list A))
  (user_input user_lower : list A) : result (option (list A)) :=
  match patterns with
  | [] => ret None
  | pattern :: rest =>
      if contains pattern user_lower then
        c <- candidate pattern user_input user_lower ;;
        match c with
        | Some potential_name =>
            if isalpha potential_name
            then ret (Some (str_title db potential_name))
            else scan_patterns rest user_input user_lower
        | None => scan_patterns rest user_input user_lower
        end
      else scan_patterns rest user_input user_lower
  end.

Definition short_alpha (user_input : list A) : bool :=
  (length (split user_input) <=? 2) && isalpha (remove_spaces user_input).

Definition detect_name_in_message (user_input : list A)
  : result (option (list A)) :=
  let user_input := strip user_input in
  let user_lower := str_lower db user_input in
  found <- scan_patterns (map lit name_patterns) user_input user_lower ;;
  match found with
  | Some n => ret (Some n)
  | None =>
      if short_alpha user_input then ret (Some (str_title db user_input))
      else ret None
  end.

End Generic.

(** The characters of the ASCII embedding. *)
Definition ascii_chars : chars ascii :=
  mkChars Ascii.eqb (fun c => c) Py.is_space Py.is_alpha Py.lower Py.title.

(** An excerpt of Python's character tables over code points: exact on
    ASCII, on the blanks, and on the characters U+0130, U+01F0, U+02BB,
    U+0307 and U+030C; it is used on texts of these characters only (every
    other character is entered as uncased and not alphabetic). *)
Definition in_range (lo hi c : N) : bool := ((lo <=? c) && (c <=? hi))%N.

Definition ucd_isspace (c : N) : bool :=
  in_range 9 13 c || in_range 28 32 c ||
  existsb (N.eqb c)
    [133; 160; 5760; 8232; 8233; 8239; 8287; 12288]%N ||
  in_range 8192 8202 c.

Definition ucd_isupper (c : N) : bool := in_range 65 90 c || (c =? 304)%N.
Definition ucd_islower (c : N) : bool := in_range 97 122 c || (c =? 496)%N.
Definition ucd_cased (c : N) : bool := ucd_isupper c || ucd_islower c.
Definition ucd_isalpha (c : N) : bool := ucd_cased c || (c =? 699)%N.

(** Lower-case and title-case mappings of one character. *)
Definition ucd_lower_char (c : N) : list N :=
  if in_range 65 90 c then [c + 32]%N
  else if (c =? 304)%N then [105; 775]%N
  else [c].

Definition ucd_title_char (c : N) : list N :=
  if in_range 97 122 c then [c - 32]%N
  else if (c =? 496)%N then [74; 780]%N
  else [c].

Definition ucd_lower (s : list N) : list N := flat_map ucd_lower_char s.

Fixpoint ucd_title_from (prev_cased : bool) (s : list N) : list N :=
  match s with
  | [] => []
  | c :: t =>
      (if ucd_cased c
       then if prev_cased then ucd_lower_char c else ucd_title_char c
       else [c]) ++ ucd_title_from (ucd_cased c) t
  end.

Definition ucd_sample : chars N :=
  mkChars N.eqb N_of_ascii ucd_isspace ucd_isalpha ucd_lower
          (ucd_title_from false).

(** A text given by its code points below 128 and the others. *)
Definition text (s : str) : list N := map N_of_ascii s.

End Uni.

(** ** Notions used in the proofs *)

(** A phrase that neither begins nor ends with a character of the class
    [q] is found in a text exactly when it is found in the trimmed text. *)
Definition trim_safe (q : ascii -> bool) (p : str) : bool :=
  match p, rev p with
  | a :: _, b :: _ => negb (q a) && negb (q b)
  | _, _ => false
  end.

(** A name in the object is never the empty string. *)
Definition name_set (self : PyPalChatbot) : Prop :=
  user_name self = None \/ truthy (user_name self) = true.

(** One character of [title_from]. *)
Definition title_char (prev_cased : bool) (c : ascii) : ascii :=
  if is_alpha c then if prev_cased then lower_char c else upper_char c else c.

(** The words of a title-cased text of letters and blanks: after a letter
    ([prev_cased] true) the first word goes on in lower case, and every
    word that starts is a title word. *)
Definition going_on (ws : list str) : Prop :=
  match ws with
  | [] => True
  | w :: rest => forallb is_lower w = true /\ forallb is_title_word rest = true
  end.

(** Case analysis on the 256 characters. *)
Ltac by_chars c :=
  destruct c as [[] [] [] [] [] [] [] []]; vm_compute; intros; congruence.

Ltac all_nonempty :=
  repeat (apply Forall_cons; [discriminate|]); apply Forall_nil.

(** * Properties *)

(** ** The generic extraction and the ASCII embedding *)

(** On the characters of the ASCII embedding the generic extraction is
    [detect_name_in_message]: the two unfold to the same function. *)
Lemma generic_detect_name s :
  Uni.detect_name_in_message Uni.ascii_chars s = detect_name_in_message s.
Proof. reflexivity. Qed.

(** Over any characters, a name found after a lead-in phrase is the
    [title] of an alphabetic word. *)
Lemma generic_scan_some {A : Type} (db : Uni.chars A) ps u l n :
  Uni.scan_patterns db ps u l = inr (Some n) ->
  exists x, Uni.isalpha db x = true /\ n = Uni.str_title db x.
Proof.
  induction ps as [|p ps IH]; cbn [Uni.scan_patterns]; [discriminate|].
  destruct (Uni.contains db p l); [|exact IH].
  destruct (Uni.candidate db p u l) as [e|[c|]]; cbn [bind];
    [discriminate| |exact IH].
  destruct (Uni.isalpha db c) eqn:Hc; [|exact IH].
  intros E. injection E as <-. now exists c.
Qed.

Lemma generic_detect_some {A : Type} (db : Uni.chars A) s n :
  Uni.detect_name_in_message db s = inr (Some n) ->
  exists x,
    n = Uni.str_title db x /\
    (Uni.isalpha db x = true \/
     (x = Uni.strip db s /\ Uni.short_alpha db x = true)).
Proof.
  unfold Uni.detect_name_in_message.
  destruct (Uni.scan_patterns db _ _ _) as [e|[m|]] eqn:Es; cbn [bind];
    [discriminate| |].
  - intros E. injection E as <-.
    destruct (generic_scan_some db _ _ _ _ Es) as (x & Hx & ->).
    exists x. split; [reflexivity|now left].
  - destruct (Uni.short_alpha db (Uni.strip db s)) eqn:Hs; [|discriminate].
    intros E. injection E as <-.
    exists (Uni.strip db s). split; [reflexivity|].
    right. split; [reflexivity|exact Hs].
Qed.

(** ** Characters *)


Lemma alpha_not_space c : is_alpha c = true -> is_space c = false.
Proof. by_chars c. Qed.

Lemma upper_of_alpha c : is_alpha c = true -> is_upper (upper_char c) = true.
Proof. by_chars c. Qed.

Lemma lower_of_alpha c : is_alpha c = true -> is_lower (lower_char c) = true.
Proof. by_chars c. Qed.

Lemma upper_is_alpha c : is_upper c = true -> is_alpha c = true.
Proof. by_chars c. Qed.

Lemma lower_is_alpha c : is_lower c = true -> is_alpha c = true.
Proof. by_chars c. Qed.

Lemma alpha_not_blank c : is_alpha c = true -> Ascii.eqb c " "%char = false.
Proof. by_chars c. Qed.

Lemma space_is_blank c : Ascii.eqb c " "%char = true -> is_space c = true.
Proof. by_chars c. Qed.

Lemma space_not_alpha c : is_space c = true -> is_alpha c = false.
Proof. by_chars c. Qed.

(** ** Trimming and splitting *)

Lemma lstrip_by_head p s :
  lstrip_by p s = [] \/ exists c t, lstrip_by p s = c :: t /\ p c = false.
Proof.
  induction s as [|c t IH]; simpl; [now left|].
  destruct (p c) eqn:E; [exact IH|].
  right. now exists c, t.
Qed.

Lemma split_nil s : split s = [] -> forallb is_space s = true.
Proof.
  induction s as [|c t IH]; simpl; [reflexivity|].
  destruct (is_space c) eqn:E; simpl; [exact IH|].
  destruct t as [|d t']; [discriminate|].
  destruct (is_space d); [discriminate|].
  destruct (split (d :: t')); discriminate.
Qed.

Lemma strip_by_last p s :
  strip_by p s = [] \/ exists t c, strip_by p s = t ++ [c] /\ p c = false.
Proof.
  unfold strip_by, rstrip_by.
  destruct (lstrip_by_head p (rev (lstrip_by p s))) as [E|(c & t & E & Hc)];
    rewrite E; simpl.
  - now left.
  - right. now exists (rev t), c.
Qed.

Lemma split_strip_nonempty s : strip s <> [] -> split (strip s) <> [].
Proof.
  intros Hne Hs. apply split_nil in Hs.
  destruct (strip_by_last is_space s) as [E|(t & c & E & Hc)].
  - now apply Hne.
  - unfold strip in Hs. rewrite E, forallb_app in Hs. simpl in Hs.
    rewrite Hc in Hs. rewrite andb_false_r in Hs. discriminate.
Qed.

(** ** No exception *)

Lemma candidate_total p u l : exists c, candidate p u l = inr c.
Proof.
  unfold candidate.
  remember (slice_from (find p l + Z.of_nat (length p)) u) as x eqn:Ex.
  clear Ex.
  destruct (strip x) as [|a y] eqn:E; [now eexists|].
  cbn [nonempty].
  destruct (split (a :: y)) as [|w ws] eqn:Es; [|now eexists].
  exfalso. apply (split_strip_nonempty x); rewrite E; [discriminate|exact Es].
Qed.

Lemma scan_patterns_total ps u l : exists o, scan_patterns ps u l = inr o.
Proof.
  induction ps as [|p ps IH]; simpl; [now eexists|].
  destruct (contains p l); [|exact IH].
  destruct (candidate_total p u l) as [c ->]. simpl.
  destruct c as [n|]; [|exact IH].
  destruct (isalpha n); [now eexists|exact IH].
Qed.

Lemma detect_name_total s : exists o, detect_name_in_message s = inr o.
Proof.
  unfold detect_name_in_message.
  destruct (scan_patterns_total name_patterns (strip s) (lower (strip s)))
    as [o ->]. simpl.
  destruct o; [now eexists|].
  destruct (short_alpha (strip s)); now eexists.
Qed.

Lemma random_choice_in {A : Type} (r : nat) (l : list A) :
  l <> [] -> exists x, random_choice r l = inr x /\ In x l.
Proof.
  destruct l as [|d l']; [congruence|]. intros _.
  unfold random_choice. eexists; split; [reflexivity|].
  apply nth_In. apply Nat.mod_upper_bound. discriminate.
Qed.


Lemma name_responses_nonempty n : Forall (fun x => x <> []) (name_responses n).
Proof. unfold name_responses. all_nonempty. Qed.

Lemma intent_responses_nonempty n s clk :
  intent_responses n s clk <> [] /\
  Forall (fun x => x <> []) (intent_responses n s clk).
Proof.
  unfold intent_responses, greeting_responses, default_responses.
  destruct (detect_goodbye s); [split; [discriminate|all_nonempty]|].
  destruct (detect_time_request s); [split; [discriminate|all_nonempty]|].
  destruct (detect_greeting s).
  { destruct (truthy n); (split; [discriminate|all_nonempty]). }
  destruct (detect_how_are_you s); [split; [discriminate|all_nonempty]|].
  destruct (truthy n); (split; [discriminate|all_nonempty]).
Qed.

(** The turn after the first: the object is left as it is. *)
Lemma generate_response_started self s r clk :
  negb (truthy (user_name self)) && negb (conversation_started self) = false ->
  exists reply,
    generate_response self s r clk = inr (reply, self) /\
    In reply (intent_responses (user_name self) s clk).
Proof.
  intros G. unfold generate_response. rewrite G.
  destruct (random_choice_in r (intent_responses (user_name self) s clk))
    as (x & -> & Hin).
  - apply intent_responses_nonempty.
  - now exists x.
Qed.

(** The first turn. *)
Lemma generate_response_first self s r clk :
  negb (truthy (user_name self)) && negb (conversation_started self) = true ->
  exists o, detect_name_in_message s = inr o /\
    ((truthy o = true /\
      exists reply,
        generate_response self s r clk
        = inr (reply, mkBot o true (log_filename self)) /\
        In reply (name_responses o)) \/
     (truthy o = false /\
      generate_response self s r clk
      = inr (no_name_reply, mkBot (user_name self) true (log_filename self)))).
Proof.
  intros G. unfold generate_response. rewrite G.
  destruct (detect_name_total s) as [o Ho]. exists o. split; [exact Ho|].
  rewrite Ho. cbn [bind].
  destruct (truthy o) eqn:T.
  - left. split; [reflexivity|].
    destruct (random_choice_in r (name_responses o)) as (x & Hx & Hin).
    + discriminate.
    + cbn [user_name]. rewrite Hx. now exists x.
  - right. now split.
Qed.

(** C1. For every input (so for every non-empty one) and every state of the
    object, [generate_response] returns: it raises no exception, and its
    reply is not the empty string.  Called on the initial state (no name,
    conversation not started), it leaves the conversation-started flag
    set. *)
Theorem generate_response_replies :
  forall (self : PyPalChatbot) (user_input : str) (r : nat)
         (clk : nat -> datetime),
    (exists reply self',
        generate_response self user_input r clk = inr (reply, self') /\
        reply <> [] /\
        (user_name self = None -> conversation_started self = false ->
         conversation_started self' = true)).
Proof.
  intros self s r clk.
  destruct (negb (truthy (user_name self)) && negb (conversation_started self))
    eqn:G.
  - destruct (generate_response_first self s r clk G)
      as (o & _ & [(_ & reply & E & Hin)|(_ & E)]).
    + exists reply, (mkBot o true (log_filename self)).
      split; [exact E|]. split; [|reflexivity].
      pose proof (name_responses_nonempty o) as F.
      rewrite Forall_forall in F. now apply F.
    + exists no_name_reply, (mkBot (user_name self) true (log_filename self)).
      split; [exact E|]. split; [discriminate|reflexivity].
  - destruct (generate_response_started self s r clk G) as (reply & E & Hin).
    exists reply, self. split; [exact E|]. split.
    + destruct (intent_responses_nonempty (user_name self) s clk) as [_ F].
      rewrite Forall_forall in F. now apply F.
    + intros Hn Hc. rewrite Hn, Hc in G. discriminate.
Qed.

Lemma generate_response_replies_witness :
  exists reply self',
    generate_response (init (py "chat.log")) (py "hello there, how are you") 3
                      (fun _ => mkDatetime 2024 3 5 13 7 9)
    = inr (reply, self') /\
    reply <> [] /\
    conversation_started self' = true.
Proof.
  destruct (generate_response_replies (init (py "chat.log"))
              (py "hello there, how are you") 3
              (fun _ => mkDatetime 2024 3 5 13 7 9))
    as (reply & self' & E & Hne & Hc).
  exists reply, self'. split; [exact E|]. split; [exact Hne|].
  apply Hc; reflexivity.
Defined.

(** ** Substrings *)

Lemma startswith_iff p s : startswith p s = true <-> exists b, s = p ++ b.
Proof.
  revert s. induction p as [|a p IH]; intros s; simpl.
  - split; [intros _; now exists s|reflexivity].
  - destruct s as [|c s]; [split; [discriminate|intros [b E]; discriminate]|].
    rewrite andb_true_iff, Ascii.eqb_eq, IH. split.
    + intros [-> [b ->]]. now exists b.
    + intros [b E]. injection E as -> ->. split; [reflexivity|now exists b].
Qed.

Lemma contains_iff p s :
  contains p s = true <-> exists a b, s = a ++ p ++ b.
Proof.
  induction s as [|c s IH]; simpl.
  - rewrite orb_false_r, startswith_iff. split.
    + intros [b E]. now exists [], b.
    + intros (a & b & E). destruct a; [now exists b|discriminate].
  - rewrite orb_true_iff, startswith_iff, IH. split.
    + intros [[b E]|(a & b & E)].
      * now exists [], b.
      * exists (c :: a), b. now rewrite E.
    + intros (a & b & E). destruct a as [|d a].
      * left. now exists b.
      * right. injection E as _ E. now exists a, b.
Qed.

Lemma contains_rev p s : contains (rev p) (rev s) = contains p s.
Proof.
  apply eq_true_iff_eq. rewrite !contains_iff. split; intros (a & b & E).
  - exists (rev b), (rev a). apply (f_equal (@rev ascii)) in E.
    rewrite rev_involutive, !rev_app_distr, rev_involutive in E.
    now rewrite E, app_assoc.
  - exists (rev b), (rev a). rewrite E, !rev_app_distr. now rewrite app_assoc.
Qed.


Lemma contains_lstrip q a p s :
  q a = false -> contains (a :: p) (lstrip_by q s) = contains (a :: p) s.
Proof.
  intros Ha. induction s as [|c s IH]; [reflexivity|].
  cbn [lstrip_by]. destruct (q c) eqn:Hc; [|reflexivity].
  rewrite IH. cbn [contains startswith].
  destruct (Ascii.eqb a c) eqn:E; [|reflexivity].
  apply Ascii.eqb_eq in E. congruence.
Qed.

Lemma contains_strip q p s :
  trim_safe q p = true -> contains p (strip_by q s) = contains p s.
Proof.
  unfold trim_safe, strip_by, rstrip_by. intros H.
  destruct p as [|a p']; [discriminate|].
  destruct (rev (a :: p')) as [|b r] eqn:Er; [discriminate|].
  apply andb_true_iff in H as [Ha Hb].
  apply negb_true_iff in Ha, Hb.
  rewrite <- (contains_lstrip q a p' s Ha).
  rewrite <- (contains_rev (a :: p') (rev _)), rev_involutive, Er.
  rewrite (contains_lstrip q b r _ Hb).
  now rewrite <- Er, contains_rev.
Qed.

Lemma any_in_strip ps s :
  forallb (trim_safe is_space) ps = true -> any_in ps (strip s) = any_in ps s.
Proof.
  unfold any_in. induction ps as [|p ps IH]; [reflexivity|].
  cbn [forallb existsb]. intros H. apply andb_true_iff in H as [Hp Hps].
  unfold strip at 1. now rewrite (contains_strip is_space p s Hp), IH.
Qed.

Lemma space_lower_char c : is_space (lower_char c) = is_space c.
Proof. by_chars c. Qed.

Lemma lstrip_lower s :
  lstrip_by is_space (lower s) = lower (lstrip_by is_space s).
Proof.
  induction s as [|c s IH]; [reflexivity|].
  cbn [lower map lstrip_by]. rewrite space_lower_char.
  destruct (is_space c); [exact IH|reflexivity].
Qed.

Lemma strip_lower s : strip (lower s) = lower (strip s).
Proof.
  unfold strip, strip_by, rstrip_by.
  rewrite lstrip_lower. unfold lower at 1. rewrite <- map_rev.
  fold (lower (rev (lstrip_by is_space s))).
  rewrite lstrip_lower. unfold lower. now rewrite map_rev.
Qed.

(** The lead-in phrases found in the trimmed message are those found in
    the message. *)
Lemma lead_in_trimmed s :
  any_in name_patterns (lower (strip s)) = any_in name_patterns (lower s).
Proof. rewrite <- strip_lower. now apply any_in_strip. Qed.

(** ** Name extraction *)

Lemma scan_patterns_none ps u l :
  any_in ps l = false -> scan_patterns ps u l = inr None.
Proof.
  unfold any_in. induction ps as [|p ps IH]; [reflexivity|].
  cbn [existsb scan_patterns]. intros H.
  apply orb_false_iff in H as [-> H]. now apply IH.
Qed.

(** The rule after the loop, when the loop finds no phrase. *)
Lemma detect_name_no_lead_in s :
  any_in name_patterns (lower s) = false ->
  detect_name_in_message s
  = inr (if short_alpha (strip s) then Some (title (strip s)) else None).
Proof.
  intros H. rewrite <- lead_in_trimmed in H.
  unfold detect_name_in_message.
  rewrite (scan_patterns_none _ _ _ H). cbn [bind].
  now destruct (short_alpha (strip s)).
Qed.

(** What the first turn stores. *)
Lemma first_turn_stores log s r clk o :
  detect_name_in_message s = inr o ->
  exists reply,
    generate_response (init log) s r clk
    = inr (reply, mkBot (if truthy o then o else None) true log).
Proof.
  intros Ho.
  destruct (generate_response_first (init log) s r clk eq_refl)
    as (o' & Ho' & [(T & reply & E & _)|(T & E)]);
    rewrite Ho in Ho'; injection Ho' as <-; rewrite T.
  - now exists reply.
  - now exists no_name_reply.
Qed.

(** C3. On the first turn, ["My name is Alice"] stores the name ["Alice"],
    ["i'm bob!"] stores ["Bob"], ["Sam"], which holds no lead-in phrase,
    stores ["Sam"], and ["I like cats"] stores no name.  When the
    lower-cased input holds no lead-in phrase, the name is the whole
    trimmed input in title case if it has at most two words and is
    alphabetic once its spaces are removed, and there is no name
    otherwise. *)
Theorem name_extraction_examples :
  (detect_name_in_message (py "My name is Alice") = inr (Some (py "Alice")) /\
   detect_name_in_message (py "i'm bob!") = inr (Some (py "Bob")) /\
   detect_name_in_message (py "Sam") = inr (Some (py "Sam")) /\
   any_in name_patterns (lower (py "Sam")) = false /\
   detect_name_in_message (py "I like cats") = inr None) /\
  (forall log r clk,
      (exists reply,
          generate_response (init log) (py "My name is Alice") r clk
          = inr (reply, mkBot (Some (py "Alice")) true log)) /\
      (exists reply,
          generate_response (init log) (py "i'm bob!") r clk
          = inr (reply, mkBot (Some (py "Bob")) true log)) /\
      (exists reply,
          generate_response (init log) (py "Sam") r clk
          = inr (reply, mkBot (Some (py "Sam")) true log)) /\
      (exists reply,
          generate_response (init log) (py "I like cats") r clk
          = inr (reply, mkBot None true log))) /\
  (forall user_input,
      any_in name_patterns (lower user_input) = false ->
      detect_name_in_message user_input
      = inr (if (length (split (strip user_input)) <=? 2) &&
                isalpha (remove_spaces (strip user_input))
             then Some (title (strip user_input))
             else None)).
Proof.
  split; [repeat split; vm_compute; reflexivity|].
  split.
  - intros log r clk. repeat split.
    + apply (first_turn_stores log _ r clk (Some (py "Alice"))). reflexivity.
    + apply (first_turn_stores log _ r clk (Some (py "Bob"))). reflexivity.
    + apply (first_turn_stores log _ r clk (Some (py "Sam"))). reflexivity.
    + apply (first_turn_stores log _ r clk None). reflexivity.
  - intros s H. exact (detect_name_no_lead_in s H).
Qed.

Lemma name_extraction_examples_witness :
  detect_name_in_message (py "Sam")
  = inr (if (length (split (strip (py "Sam"))) <=? 2) &&
            isalpha (remove_spaces (strip (py "Sam")))
         then Some (title (strip (py "Sam")))
         else None).
Proof.
  apply (proj2 (proj2 name_extraction_examples) (py "Sam")).
  vm_compute. reflexivity.
Defined.

(** ** Lead-in phrases *)

Lemma after_phrase_none p l u :
  contains p l = false -> after_phrase p l u = None.
Proof.
  revert u. induction l as [|c l IH]; intros u; cbn [contains after_phrase];
    intros H; apply orb_false_iff in H as [-> H]; [reflexivity|].
  destruct u; [reflexivity|now apply IH].
Qed.

Lemma slice_from_nonneg (k : Z) (u : str) :
  (0 <= k)%Z -> slice_from k u = skipn (Z.to_nat k) u.
Proof.
  intros Hk. unfold slice_from. destruct (Z.ltb_spec k 0); [lia|reflexivity].
Qed.

(** [find] and the slice agree with [after_phrase]. *)
Lemma slice_after_find p l u :
  length l = length u -> contains p l = true ->
  after_phrase p l u
  = Some (slice_from (find p l + Z.of_nat (length p)) u) /\
  (0 <= find p l)%Z.
Proof.
  revert u. induction l as [|c l IH]; intros u Hlen;
    cbn [contains after_phrase find]; intros H.
  - rewrite orb_false_r in H. rewrite H. split; [|lia].
    rewrite slice_from_nonneg by lia. cbn [Z.add]. now rewrite Nat2Z.id.
  - destruct (startswith p (c :: l)) eqn:Es.
    + split; [|lia].
      rewrite slice_from_nonneg by lia. cbn [Z.add]. now rewrite Nat2Z.id.
    + cbn [orb] in H. destruct u as [|d u]; [discriminate|].
      injection Hlen as Hlen.
      destruct (IH u Hlen H) as [E Hk]. rewrite E.
      destruct (Z.ltb_spec (find p l) 0); [lia|]. split; [|lia].
      f_equal. rewrite !slice_from_nonneg by lia.
      replace (find p l + 1 + Z.of_nat (length p))%Z
        with (Z.succ (find p l + Z.of_nat (length p))) by lia.
      rewrite Z2Nat.inj_succ by lia. reflexivity.
Qed.

Lemma first_word_item0 x :
  (if nonempty (strip x)
   then first <- item0 (split (strip x)) ;;
        ret (Some (strip_chars (py ".,!?") first))
   else ret None)
  = inr (option_map (strip_chars (py ".,!?")) (first_word x)).
Proof.
  unfold first_word.
  destruct (strip x) as [|a y] eqn:E; [reflexivity|]. cbn [nonempty].
  destruct (split (a :: y)) as [|w ws] eqn:Es; [|reflexivity].
  exfalso. apply (split_strip_nonempty x); rewrite E; [discriminate|exact Es].
Qed.

(** One round of the loop, in terms of the candidate of its phrase. *)
Lemma scan_patterns_step p ps u :
  scan_patterns (p :: ps) u (lower u)
  = match lead_in_candidate p u with
    | Some c => inr (Some (title c))
    | None => scan_patterns ps u (lower u)
    end.
Proof.
  cbn [scan_patterns]. unfold lead_in_candidate.
  destruct (contains p (lower u)) eqn:Hc.
  - destruct (slice_after_find p (lower u) u) as [-> _];
      [apply length_map|exact Hc|].
    unfold candidate. rewrite first_word_item0. cbn [bind].
    destruct (first_word _) as [w|]; cbn [option_map]; [|reflexivity].
    now destruct (isalpha _).
  - now rewrite (after_phrase_none _ _ _ Hc).
Qed.

Lemma scan_patterns_rejected ps u :
  Forall (fun q => lead_in_candidate q u = None) ps ->
  scan_patterns ps u (lower u) = inr None.
Proof.
  induction 1 as [|q ps Hq _ IH]; [reflexivity|].
  now rewrite scan_patterns_step, Hq.
Qed.

Lemma scan_patterns_accepted before p after u c :
  Forall (fun q => lead_in_candidate q u = None) before ->
  lead_in_candidate p u = Some c ->
  scan_patterns (before ++ p :: after) u (lower u) = inr (Some (title c)).
Proof.
  intros Hb Hp. induction Hb as [|q ps Hq _ IH];
    cbn [app]; rewrite scan_patterns_step.
  - now rewrite Hp.
  - now rewrite Hq.
Qed.

(** C2, as the code has it, for a first-turn input of ASCII characters.
    The lead-in phrases are tried in the order of their list.  The
    candidate of a phrase found in the lower-cased trimmed input is the
    first word of the text after the first occurrence of the phrase, with
    [.,!?] taken off both its ends, and it is accepted when it is
    alphabetic.  The name is the title-cased candidate of the first phrase
    of the list whose candidate is accepted: a rejected candidate passes
    the turn to the next phrase.  When no phrase has an accepted candidate
    and the trimmed input is not a short alphabetic message, no name is
    extracted.  ([detect_name_in_message] is the generic extraction at the
    ASCII characters.) *)
Theorem lead_in_extraction :
  forall user_input : str,
    ascii_text user_input = true ->
    (forall before p after c,
        name_patterns = before ++ p :: after ->
        Forall (fun q => lead_in_candidate q (strip user_input) = None) before ->
        lead_in_candidate p (strip user_input) = Some c ->
        detect_name_in_message user_input = inr (Some (title c))) /\
    (Forall (fun q => lead_in_candidate q (strip user_input) = None)
            name_patterns ->
     short_alpha (strip user_input) = false ->
     detect_name_in_message user_input = inr None) /\
    Uni.detect_name_in_message Uni.ascii_chars user_input
    = detect_name_in_message user_input.
Proof.
  intros s _. split; [|split].
  - intros before p after c Hn Hb Hp. unfold detect_name_in_message.
    rewrite Hn, (scan_patterns_accepted before p after _ c Hb Hp).
    reflexivity.
  - intros Hall Hs. unfold detect_name_in_message.
    rewrite (scan_patterns_rejected _ _ Hall). cbn [bind]. now rewrite Hs.
  - apply generic_detect_name.
Qed.

Lemma lead_in_extraction_witness :
  detect_name_in_message (py "i'm 5, call me Bob") = inr (Some (title (py "Bob")))
  /\ detect_name_in_message (py "i'm 5 years old") = inr None.
Proof.
  split.
  - apply (proj1 (lead_in_extraction (py "i'm 5, call me Bob") eq_refl)
             [py "my name is"; py "i'm"; py "i am"] (py "call me")
             [py "name's"; py "i go by"] (py "Bob")).
    + reflexivity.
    + repeat constructor.
    + reflexivity.
  - apply (proj1 (proj2 (lead_in_extraction (py "i'm 5 years old") eq_refl))).
    + repeat constructor.
    + reflexivity.
Defined.

(** C2, as the specification words it, fails: in ["i'm 5, call me Bob"] the
    first phrase found is ["i'm"], its word ["5"] is rejected, and the code
    goes on to ["call me"] and extracts ["Bob"]; in ["call me !bob"] the
    code takes the leading ["!"] off the word and extracts ["Bob"].
    Outside ASCII the text after the phrase is not even what the code
    reads: the lower-cased form of [U+0130] has two characters, so in
    [U+0130 U+0130 U+0130] followed by [" my name is Bob"] the index found
    in the lower-cased text is three places too far in the message, and
    the name extracted is ["B"]. *)
Lemma lead_in_first_phrase_alone_fails :
  (any_in name_patterns (lower (py "i'm 5, call me Bob")) = true /\
   claimed_lead_in_name (py "i'm 5, call me Bob") = None /\
   detect_name_in_message (py "i'm 5, call me Bob") = inr (Some (py "Bob"))) /\
  (any_in name_patterns (lower (py "call me !bob")) = true /\
   claimed_lead_in_name (py "call me !bob") = None /\
   detect_name_in_message (py "call me !bob") = inr (Some (py "Bob"))) /\
  (Uni.str_lower Uni.ucd_sample [304%N] = [105%N; 775%N] /\
   Uni.detect_name_in_message Uni.ucd_sample
     ([304%N; 304%N; 304%N] ++ Uni.text (py " my name is Bob"))
   = inr (Some (Uni.text (py "B")))).
Proof. repeat split; vm_compute; reflexivity. Qed.

(** An empty candidate also passes the turn on, down to the test on the
    whole message. *)
Example lead_in_without_word :
  detect_name_in_message (py "I am") = inr (Some (py "I Am")) /\
  detect_name_in_message (py "call me") = inr (Some (py "Call Me")).
Proof. split; reflexivity. Qed.

(** ** Turns after the first *)

Lemma generate_response_after_first self s r clk :
  truthy (user_name self) = true \/ conversation_started self = true ->
  exists reply,
    generate_response self s r clk = inr (reply, self) /\
    In reply (intent_responses (user_name self) s clk).
Proof.
  intros H. apply generate_response_started.
  destruct H as [-> | ->]; [reflexivity|apply andb_false_r].
Qed.

Lemma run_app self a b :
  run self (a ++ b) = (self' <- run self a ;; run self' b).
Proof.
  revert self. induction a as [|t a IH]; intros self; [reflexivity|].
  cbn [app run].
  destruct (generate_response self (turn_input t) (turn_draw t) (turn_clock t))
    as [e|p]; [reflexivity|].
  cbn [bind]. apply IH.
Qed.

Lemma run_after_first self turns :
  truthy (user_name self) = true \/ conversation_started self = true ->
  run self turns = inr self.
Proof.
  intros H. induction turns as [|t turns IH]; [reflexivity|].
  cbn [run].
  destruct (generate_response_after_first self (turn_input t) (turn_draw t)
              (turn_clock t) H) as (reply & -> & _).
  exact IH.
Qed.


Lemma generate_response_name_set self s r clk reply self' :
  name_set self ->
  generate_response self s r clk = inr (reply, self') -> name_set self'.
Proof.
  intros Hw E.
  destruct (negb (truthy (user_name self)) && negb (conversation_started self))
    eqn:G.
  - destruct (generate_response_first self s r clk G)
      as (o & _ & [(T & reply' & E' & _)|(T & E')]);
      rewrite E' in E; injection E as _ <-.
    + now right.
    + apply andb_true_iff in G as [G _]. apply negb_true_iff in G.
      destruct Hw as [Hw|Hw]; [now left|congruence].
  - destruct (generate_response_started self s r clk G) as (reply' & E' & _).
    rewrite E' in E. now injection E as _ <-.
Qed.

Lemma run_name_set self turns self' :
  name_set self -> run self turns = inr self' -> name_set self'.
Proof.
  revert self. induction turns as [|t turns IH]; intros self Hw E.
  - cbn [run] in E. now injection E as <-.
  - cbn [run] in E.
    destruct (generate_response self (turn_input t) (turn_draw t)
                (turn_clock t)) as [e|[reply self1]] eqn:E1; [discriminate|].
    cbn [bind snd] in E.
    exact (IH self1 (generate_response_name_set _ _ _ _ _ _ Hw E1) E).
Qed.

(** C4. In every session, once the object holds a name it keeps it: after
    any turns that left the name [n] in the object, any further turns,
    whatever their inputs, leave the object unchanged, so its name is still
    [n].  Name extraction is out of reach as soon as a name is set or the
    conversation has started: such a call returns the object as it was,
    also on the input ["my name is Bob"]. *)
Theorem user_name_set_once :
  forall (log : str) (before after : list turn) (self1 : PyPalChatbot)
         (n : str),
    run (init log) before = inr self1 ->
    user_name self1 = Some n ->
    (exists self2,
        run (init log) (before ++ after) = inr self2 /\
        user_name self2 = Some n) /\
    (forall self user_input r clk,
        truthy (user_name self) = true \/ conversation_started self = true ->
        exists reply, generate_response self user_input r clk = inr (reply, self)) /\
    (forall r clk,
        exists reply,
          generate_response self1 (py "my name is Bob") r clk
          = inr (reply, self1)).
Proof.
  intros log before after self1 n Hrun Hn.
  assert (T : truthy (user_name self1) = true).
  { destruct (run_name_set (init log) before self1 (or_introl eq_refl) Hrun)
      as [E|E]; [congruence|exact E]. }
  split; [|split].
  - exists self1. split; [|exact Hn].
    rewrite run_app, Hrun. cbn [bind]. apply run_after_first. now left.
  - intros self s r clk H.
    destruct (generate_response_after_first self s r clk H) as (reply & E & _).
    now exists reply.
  - intros r clk.
    destruct (generate_response_after_first self1 (py "my name is Bob") r clk
                (or_introl T)) as (reply & E & _).
    now exists reply.
Qed.

Lemma user_name_set_once_witness :
  exists self2,
    run (init (py "chat.log"))
        ([mkTurn (py "Alice") 0 (fun _ => mkDatetime 2024 3 5 13 7 9)] ++
         [mkTurn (py "my name is Bob") 1 (fun _ => mkDatetime 2024 3 5 13 8 0)])
    = inr self2 /\
    user_name self2 = Some (py "Alice").
Proof.
  apply (proj1 (user_name_set_once (py "chat.log")
                  [mkTurn (py "Alice") 0 (fun _ => mkDatetime 2024 3 5 13 7 9)]
                  [mkTurn (py "my name is Bob") 1
                          (fun _ => mkDatetime 2024 3 5 13 8 0)]
                  (mkBot (Some (py "Alice")) true (py "chat.log"))
                  (py "Alice") eq_refl eq_refl)).
Defined.

(** C7. On the first turn, when no name is extracted, the engine sets the
    conversation-started flag and returns the one "didn't catch your name"
    reply, whatever else the input holds.  From then on the name stays
    unset through any later turns, and each later turn answers from the
    ordered intent chain and leaves the object as it is. *)
Theorem first_turn_without_name :
  forall (self : PyPalChatbot) (user_input : str) (r : nat)
         (clk : nat -> datetime),
    user_name self = None ->
    conversation_started self = false ->
    detect_name_in_message user_input = inr None ->
    let self' := mkBot None true (log_filename self) in
    generate_response self user_input r clk = inr (no_name_reply, self') /\
    (forall later, run self' later = inr self') /\
    (forall later_input r' clk',
        exists reply,
          generate_response self' later_input r' clk' = inr (reply, self') /\
          In reply (intent_responses None later_input clk')).
Proof.
  intros self s r clk Hn Hc Hd self'. split; [|split].
  - unfold generate_response. rewrite Hn, Hc, Hd. reflexivity.
  - intros later. apply run_after_first. now right.
  - intros s' r' clk'.
    apply (generate_response_after_first self' s' r' clk'). now right.
Qed.

Lemma first_turn_without_name_witness :
  detect_goodbye (py "bye 123") = true /\
  generate_response (init (py "chat.log")) (py "bye 123") 0
                    (fun _ => mkDatetime 2024 3 5 13 7 9)
  = inr (no_name_reply, mkBot None true (py "chat.log")) /\
  run (mkBot None true (py "chat.log"))
      [mkTurn (py "my name is Alice") 0 (fun _ => mkDatetime 2024 3 5 13 8 0)]
  = inr (mkBot None true (py "chat.log")).
Proof.
  split; [reflexivity|].
  pose proof (first_turn_without_name (init (py "chat.log")) (py "bye 123") 0
                (fun _ => mkDatetime 2024 3 5 13 7 9) eq_refl eq_refl eq_refl)
    as [H1 [H2 _]].
  split; [exact H1|apply H2].
Defined.

(** ** Order of the intents *)

Lemma detect_goodbye_lower s :
  detect_goodbye s = any_in goodbye_phrases (lower s).
Proof. unfold detect_goodbye. now apply any_in_strip. Qed.

Lemma intent_of_first_matching s : intent_of s = first_matching_intent s.
Proof.
  unfold intent_of, first_matching_intent.
  now rewrite detect_goodbye_lower.
Qed.

Lemma intent_responses_variants n s clk :
  intent_responses n s clk = variants (intent_of s) n clk.
Proof.
  unfold intent_responses, intent_of.
  destruct (detect_goodbye s); [reflexivity|].
  destruct (detect_time_request s); [reflexivity|].
  destruct (detect_greeting s); [reflexivity|].
  now destruct (detect_how_are_you s).
Qed.

(** C5. On every turn after the first, the reply is one of the variants of
    the first detector, in the order farewell, time query, greeting, "how
    are you", fallback, whose phrase set has a member inside the
    lower-cased input, and the object is left as it is.  The input
    ["hi, bye"] holds a greeting phrase and a farewell phrase, and its
    reply is a farewell variant. *)
Theorem intents_in_fixed_order :
  forall (self : PyPalChatbot) (user_input : str) (r : nat)
         (clk : nat -> datetime),
    conversation_started self = true ->
    (exists reply,
        generate_response self user_input r clk = inr (reply, self) /\
        In reply (variants (first_matching_intent user_input)
                           (user_name self) clk)) /\
    (any_in greetings (lower (py "hi, bye")) = true /\
     any_in goodbye_phrases (lower (py "hi, bye")) = true /\
     exists reply,
       generate_response self (py "hi, bye") r clk = inr (reply, self) /\
       In reply (goodbye_responses (user_name self))).
Proof.
  intros self s r clk Hc.
  assert (H : forall s', exists reply,
             generate_response self s' r clk = inr (reply, self) /\
             In reply (variants (first_matching_intent s') (user_name self) clk)).
  { intros s'.
    destruct (generate_response_after_first self s' r clk (or_intror Hc))
      as (reply & E & Hin).
    exists reply. split; [exact E|].
    now rewrite <- intent_of_first_matching, <- intent_responses_variants. }
  split; [apply H|].
  split; [reflexivity|]. split; [reflexivity|]. exact (H (py "hi, bye")).
Qed.

Lemma intents_in_fixed_order_witness :
  exists reply,
    generate_response (mkBot None true (py "chat.log")) (py "what time is it?")
                      1 (fun _ => mkDatetime 2024 3 5 13 7 9)
    = inr (reply, mkBot None true (py "chat.log")) /\
    In reply (variants (first_matching_intent (py "what time is it?")) None
                       (fun _ => mkDatetime 2024 3 5 13 7 9)).
Proof.
  apply (proj1 (intents_in_fixed_order (mkBot None true (py "chat.log"))
                  (py "what time is it?") 1
                  (fun _ => mkDatetime 2024 3 5 13 7 9) eq_refl)).
Defined.

(** C6. In a started conversation with the name ["Alice"], every reply to
    ["bye"] is a farewell variant and holds ["Alice"].  In a started
    conversation without a name, every reply to ["hello"] is one of the
    four greetings without a name, and the name slot is the empty string. *)
Theorem name_in_replies :
  forall (log : str) (r : nat) (clk : nat -> datetime),
    (exists reply,
        generate_response (mkBot (Some (py "Alice")) true log) (py "bye") r clk
        = inr (reply, mkBot (Some (py "Alice")) true log) /\
        In reply (goodbye_responses (Some (py "Alice"))) /\
        contains (py "Alice") reply = true) /\
    (exists reply,
        generate_response (mkBot None true log) (py "hello") r clk
        = inr (reply, mkBot None true log) /\
        In reply [py "Hello there! How can I help you today? 😊";
                  py "Hi! Great to meet you! What's on your mind?";
                  py "Hey! I'm here and ready to chat!";
                  py "Hello! How are you doing today?"] /\
        name_slot None = []).
Proof.
  intros log r clk. split.
  - destruct (generate_response_after_first
                (mkBot (Some (py "Alice")) true log) (py "bye") r clk
                (or_intror eq_refl)) as (reply & E & Hin).
    exists reply. split; [exact E|].
    change (In reply (goodbye_responses (Some (py "Alice")))) in Hin.
    split; [exact Hin|].
    destruct Hin as [<-|[<-|[<-|[<-|[]]]]]; reflexivity.
  - destruct (generate_response_after_first
                (mkBot None true log) (py "hello") r clk
                (or_intror eq_refl)) as (reply & E & Hin).
    exists reply. split; [exact E|]. split; [exact Hin|reflexivity].
Qed.

(** ** The time reply *)

Lemma digit_is_digit n : is_digit (digit n) = true.
Proof.
  unfold digit. pose proof (Z.mod_pos_bound n 10 eq_refl) as B.
  remember (Z.to_nat (n mod 10)) as k eqn:Ek.
  assert (Hk : k < 10) by lia. clear Ek B.
  do 10 (destruct k as [|k]; [reflexivity|]). lia.
Qed.

Lemma matches_digits1 a : matches (times 1 re_d) [digit a].
Proof.
  change [digit a] with ([digit a] ++ []). cbn [times].
  apply m_seq; [apply m_class, digit_is_digit|apply m_lit].
Qed.

Lemma matches_pad2 n : matches (times 2 re_d) (pad2 n).
Proof.
  unfold pad2. change [digit (n / 10); digit n]
    with ([digit (n / 10)] ++ [digit n]).
  apply m_seq; [apply m_class, digit_is_digit|apply matches_digits1].
Qed.

Lemma matches_dec4 n : matches (times 4 re_d) (dec4 n).
Proof.
  unfold dec4.
  change [digit (n / 1000); digit (n / 100); digit (n / 10); digit n]
    with ([digit (n / 1000)] ++ [digit (n / 100)] ++ pad2 n).
  apply m_seq; [apply m_class, digit_is_digit|].
  apply m_seq; [apply m_class, digit_is_digit|apply matches_pad2].
Qed.

Lemma matches_word s :
  s <> [] -> forallb is_word s = true -> matches (Plus re_w) s.
Proof.
  induction s as [|c s IH]; [congruence|]. intros _ H.
  cbn [forallb] in H. apply andb_true_iff in H as [Hc Hs].
  destruct s as [|d s'].
  - apply m_plus_one, m_class, Hc.
  - change (c :: d :: s') with ([c] ++ d :: s').
    apply m_plus_more; [apply m_class, Hc|apply IH; [discriminate|exact Hs]].
Qed.

Lemma matches_month m : (1 <= m <= 12)%Z -> matches (Plus re_w) (month_name m).
Proof.
  intros Hm.
  assert (Hk : exists k, k < 12 /\ m = Z.of_nat (S k)).
  { exists (Z.to_nat (m - 1)). lia. }
  destruct Hk as (k & Hk & ->). unfold month_name.
  replace (Z.to_nat (Z.of_nat (S k) - 1)) with k by lia.
  do 12 (destruct k as [|k];
         [apply matches_word; [discriminate|reflexivity]|]).
  lia.
Qed.

Lemma matches_am_pm h : matches (Alt (Lit (py "AM")) (Lit (py "PM"))) (am_pm h).
Proof.
  unfold am_pm. destruct (h <? 12)%Z; [apply m_alt_l|apply m_alt_r]; apply m_lit.
Qed.

(** The text of [get_current_time] has the shape of the pattern. *)
Lemma get_current_time_matches now :
  valid_datetime now -> matches time_pattern (get_current_time now).
Proof.
  intros (_ & Hm & _). unfold get_current_time, time_pattern, seqs.
  cbn [fold_right]. rewrite <- (app_nil_r (dec4 (year now))).
  repeat apply m_seq; try apply m_lit.
  - apply matches_pad2.
  - apply matches_pad2.
  - apply matches_am_pm.
  - apply matches_month, Hm.
  - apply m_alt_r, matches_pad2.
  - apply matches_dec4.
Qed.

Lemma digit_inj a b : digit a = digit b -> (a mod 10 = b mod 10)%Z.
Proof.
  unfold digit. intros H. apply (f_equal nat_of_ascii) in H.
  pose proof (Z.mod_pos_bound a 10 eq_refl).
  pose proof (Z.mod_pos_bound b 10 eq_refl).
  rewrite !nat_ascii_embedding in H by lia. lia.
Qed.

Lemma pad2_inj a b :
  (0 <= a < 100)%Z -> (0 <= b < 100)%Z -> pad2 a = pad2 b -> a = b.
Proof.
  intros Ha Hb H. unfold pad2 in H. injection H as H1 H2.
  apply digit_inj in H1, H2.
  pose proof (Z.div_mod a 10). pose proof (Z.div_mod b 10).
  pose proof (Z.mod_pos_bound a 10 eq_refl).
  pose proof (Z.mod_pos_bound b 10 eq_refl).
  assert (0 <= a / 10 < 10)%Z
    by (split; [apply Z.div_pos|apply Z.div_lt_upper_bound]; lia).
  assert (0 <= b / 10 < 10)%Z
    by (split; [apply Z.div_pos|apply Z.div_lt_upper_bound]; lia).
  rewrite !Z.mod_small in H1 by lia. lia.
Qed.

Lemma dec4_inj a b :
  (0 <= a < 10000)%Z -> (0 <= b < 10000)%Z -> dec4 a = dec4 b -> a = b.
Proof.
  intros Ha Hb H. unfold dec4 in H. injection H as H1 H2 H3 H4.
  apply digit_inj in H1, H2, H3, H4.
  revert H1 H2 H3 H4. Z.div_mod_to_equations. lia.
Qed.

Lemma month_name_inj k1 k2 x y :
  k1 < 12 -> k2 < 12 ->
  nth k1 month_names [] ++ " "%char :: x = nth k2 month_names [] ++ " "%char :: y ->
  k1 = k2 /\ x = y.
Proof.
  intros H1 H2.
  assert (C1 : k1 = 0 \/ k1 = 1 \/ k1 = 2 \/ k1 = 3 \/ k1 = 4 \/ k1 = 5 \/
               k1 = 6 \/ k1 = 7 \/ k1 = 8 \/ k1 = 9 \/ k1 = 10 \/ k1 = 11)
    by lia.
  assert (C2 : k2 = 0 \/ k2 = 1 \/ k2 = 2 \/ k2 = 3 \/ k2 = 4 \/ k2 = 5 \/
               k2 = 6 \/ k2 = 7 \/ k2 = 8 \/ k2 = 9 \/ k2 = 10 \/ k2 = 11)
    by lia.
  clear H1 H2.
  repeat (destruct C1 as [->|C1]); subst;
    repeat (destruct C2 as [->|C2]); subst;
    cbn [nth month_names py String.list_ascii_of_string app]; intros H;
    first [discriminate H | (split; [reflexivity|congruence])].
Qed.

Lemma hour_of_12_hour_text h1 h2 :
  (0 <= h1 < 24)%Z -> (0 <= h2 < 24)%Z ->
  hour12 h1 = hour12 h2 -> am_pm h1 = am_pm h2 -> h1 = h2.
Proof.
  unfold hour12, am_pm. intros B1 B2 H A.
  destruct (Z.ltb_spec h1 12), (Z.ltb_spec h2 12); try discriminate A;
    destruct (Z.eqb_spec (h1 mod 12) 0), (Z.eqb_spec (h2 mod 12) 0);
    revert H; Z.div_mod_to_equations; lia.
Qed.

Lemma hour12_range h : (0 <= h < 24)%Z -> (0 <= hour12 h < 100)%Z.
Proof.
  unfold hour12. intros B.
  destruct (Z.eqb_spec (h mod 12) 0); [lia|].
  pose proof (Z.mod_pos_bound h 12 eq_refl). lia.
Qed.

(** The text of [get_current_time] can be read back. *)
Lemma get_current_time_inj d1 d2 :
  valid_datetime d1 -> valid_datetime d2 ->
  get_current_time d1 = get_current_time d2 ->
  year d1 = year d2 /\ month d1 = month d2 /\ day d1 = day d2 /\
  hour d1 = hour d2 /\ minute d1 = minute d2.
Proof.
  destruct d1 as [y1 mo1 d1 h1 mi1 s1], d2 as [y2 mo2 d2 h2 mi2 s2].
  unfold valid_datetime, get_current_time.
  cbn [year month day hour minute second].
  intros (Hy1 & Hmo1 & Hd1 & Hh1 & Hmi1 & Hs1)
         (Hy2 & Hmo2 & Hd2 & Hh2 & Hmi2 & Hs2) H.
  apply app_inv_head in H.
  assert (Eh : pad2 (hour12 h1) = pad2 (hour12 h2) /\
               pad2 mi1 = pad2 mi2 /\ am_pm h1 = am_pm h2 /\
               month_name mo1 ++ " "%char :: pad2 d1 ++ py ", " ++ dec4 y1
               = month_name mo2 ++ " "%char :: pad2 d2 ++ py ", " ++ dec4 y2).
  { unfold pad2 at 1 2 4 5 in H.
    unfold am_pm in *.
    destruct (h1 <? 12)%Z, (h2 <? 12)%Z;
      cbn [py String.list_ascii_of_string app] in H;
      injection H as A1 A2 A3 A4 A5; try discriminate;
      (repeat split; [unfold pad2; congruence|unfold pad2; congruence|exact A5]). }
  destruct Eh as (E1 & E2 & E3 & E4).
  apply pad2_inj in E1; [|now apply hour12_range|now apply hour12_range].
  apply pad2_inj in E2; [|lia|lia].
  pose proof (hour_of_12_hour_text h1 h2 Hh1 Hh2 E1 E3) as Eh.
  unfold month_name in E4.
  apply month_name_inj in E4; [|lia|lia]. destruct E4 as [Em E4].
  assert (Emo : mo1 = mo2) by lia.
  unfold pad2 at 1 2 in E4.
  cbn [py String.list_ascii_of_string app] in E4.
  injection E4 as D1 D2 Y1 Y2 Y3 Y4.
  assert (Ed : pad2 d1 = pad2 d2) by (unfold pad2; congruence).
  assert (Ey : dec4 y1 = dec4 y2) by (unfold dec4; congruence).
  apply pad2_inj in Ed; [|lia|lia].
  apply dec4_inj in Ey; [|lia|lia]. now subst.
Qed.

(** C8, as the code has it.  For every input, in a started conversation,
    whose lower-cased text holds a time keyword and no farewell phrase
    (["what time is it?"] is one), the reply embeds the local time read
    from the clock during this call: the text
    [It's currently <HH>:<MM> <AM|PM> on <Month> <DD>, <YYYY>] of that
    reading, alone, with the emoji suffix or with the "Sure thing" prefix.
    The text matches
    [It's currently \d{2}:\d{2} (AM|PM) on \w+ \d{1,2}, \d{4}], and the
    year, month, day, hour and minute of the reading can be read back
    from it.  The object, which holds no time, is left as it is. *)
Theorem time_query_reply :
  forall (self : PyPalChatbot) (user_input : str) (r : nat)
         (clk : nat -> datetime),
    conversation_started self = true ->
    any_in goodbye_phrases (lower user_input) = false ->
    any_in time_keywords (lower user_input) = true ->
    (forall k, valid_datetime (clk k)) ->
    exists reply k,
      k < 3 /\
      generate_response self user_input r clk = inr (reply, self) /\
      let now := clk k in
      let t :=
        py "It's currently " ++ pad2 (hour12 (hour now)) ++ py ":" ++
        pad2 (minute now) ++ py " " ++
        (if (hour now <? 12)%Z then py "AM" else py "PM") ++ py " on " ++
        nth (Z.to_nat (month now - 1)) month_names [] ++ py " " ++
        pad2 (day now) ++ py ", " ++ dec4 (year now) in
      In reply [t; t ++ py " ⏰";
                py "Sure thing" ++ name_slot (user_name self) ++ py "! " ++ t] /\
      matches time_pattern t /\
      (forall d, valid_datetime d -> get_current_time d = t ->
                 year d = year now /\ month d = month now /\
                 day d = day now /\ hour d = hour now /\
                 minute d = minute now).
Proof.
  intros self s r clk Hc Hg Ht Hclk.
  destruct (generate_response_after_first self s r clk (or_intror Hc))
    as (reply & E & Hin).
  unfold intent_responses in Hin.
  rewrite detect_goodbye_lower, Hg in Hin.
  unfold detect_time_request in Hin. rewrite Ht in Hin.
  unfold time_responses in Hin.
  assert (Hk : forall k, k < 3 ->
            In reply (time_wrappings (user_name self) (get_current_time (clk k))) ->
            exists reply' k',
              k' < 3 /\
              generate_response self s r clk = inr (reply', self) /\
              let now := clk k' in
              let t :=
                py "It's currently " ++ pad2 (hour12 (hour now)) ++ py ":" ++
                pad2 (minute now) ++ py " " ++
                (if (hour now <? 12)%Z then py "AM" else py "PM") ++
                py " on " ++
                nth (Z.to_nat (month now - 1)) month_names [] ++ py " " ++
                pad2 (day now) ++ py ", " ++ dec4 (year now) in
              In reply' [t; t ++ py " ⏰";
                         py "Sure thing" ++ name_slot (user_name self) ++
                         py "! " ++ t] /\
              matches time_pattern t /\
              (forall d, valid_datetime d -> get_current_time d = t ->
                         year d = year now /\ month d = month now /\
                         day d = day now /\ hour d = hour now /\
                         minute d = minute now)).
  { intros k Hlt Hw. exists reply, k. split; [exact Hlt|]. split; [exact E|].
    split; [exact Hw|].
    split; [exact (get_current_time_matches (clk k) (Hclk k))|].
    intros d Hd Ed. exact (get_current_time_inj d (clk k) Hd (Hclk k) Ed). }
  destruct Hin as [<-|[<-|[<-|[]]]].
  - apply (Hk 0); [lia|now left].
  - apply (Hk 1); [lia|right; now left].
  - apply (Hk 2); [lia|right; right; now left].
Qed.

Lemma time_query_reply_witness :
  exists reply k,
    k < 3 /\
    generate_response (mkBot (Some (py "Alice")) true (py "chat.log"))
                      (py "what time is it?") 2
                      (fun k => mkDatetime 2024 3 5 13 7 (Z.of_nat (k mod 60)))
    = inr (reply, mkBot (Some (py "Alice")) true (py "chat.log")) /\
    In reply [py "It's currently 01:07 PM on March 05, 2024";
              py "It's currently 01:07 PM on March 05, 2024 ⏰";
              py "Sure thing, Alice! It's currently 01:07 PM on March 05, 2024"].
Proof.
  destruct (time_query_reply (mkBot (Some (py "Alice")) true (py "chat.log"))
              (py "what time is it?") 2
              (fun k => mkDatetime 2024 3 5 13 7 (Z.of_nat (k mod 60))))
    as (reply & k & Hk & E & Hin & _).
  - reflexivity.
  - reflexivity.
  - reflexivity.
  - intros k. unfold valid_datetime.
    cbn [year month day hour minute second].
    pose proof (Nat.mod_upper_bound k 60). lia.
  - exists reply, k. split; [exact Hk|]. split; [exact E|]. exact Hin.
Defined.

(** C8, as the specification words it, fails: ["What time is it, my
    friend?"] asks for the time, yet its lower-cased text holds the
    farewell phrase ["end"], and farewell comes first: whatever the draw,
    the reply is a farewell and holds no time. *)
Lemma time_question_answered_as_farewell :
  detect_time_request (py "What time is it, my friend?") = true /\
  map (fun r => generate_response (mkBot None true (py "chat.log"))
                  (py "What time is it, my friend?") r
                  (fun _ => mkDatetime 2024 3 5 13 7 9))
      [0; 1; 2; 3]
  = map (fun reply => inr (reply, mkBot None true (py "chat.log")))
        (goodbye_responses None) /\
  forallb (fun reply => negb (contains (py "It's currently") reply))
          (goodbye_responses None) = true.
Proof. repeat split; vm_compute; reflexivity. Qed.

(** An input with a time keyword and a farewell phrase is resolved to the
    farewell, which comes first in the chain. *)
Example time_keyword_with_farewell :
  detect_time_request (py "what time does the store close?") = true /\
  first_matching_intent (py "what time does the store close?") = Farewell.
Proof. split; reflexivity. Qed.

(** ** The conversation log *)

Lemma str_eqb_eq a b : str_eqb a b = true <-> a = b.
Proof.
  revert b. induction a as [|x a IH]; intros [|y b]; cbn [str_eqb];
    try (split; [discriminate|congruence]); [now split|].
  rewrite andb_true_iff, Ascii.eqb_eq, IH. split.
  - now intros [-> ->].
  - intros E. now injection E.
Qed.

Lemma str_eqb_refl a : str_eqb a a = true.
Proof. now apply str_eqb_eq. Qed.

Lemma str_eqb_neq a b : a <> b -> str_eqb a b = false.
Proof.
  intros H. destruct (str_eqb a b) eqn:E; [|reflexivity].
  now apply str_eqb_eq in E.
Qed.

Lemma count_newlines_app a b :
  count_newlines (a ++ b) = count_newlines a + count_newlines b.
Proof. unfold count_newlines. now rewrite filter_app, length_app. Qed.

Lemma digits_one_line s : forallb is_digit s = true -> count_newlines s = 0.
Proof.
  unfold count_newlines. induction s as [|c s IH]; [reflexivity|].
  cbn [forallb filter]. intros H. apply andb_true_iff in H as [Hc Hs].
  replace (Ascii.eqb newline c) with false; [now apply IH|].
  revert Hc. by_chars c.
Qed.

Lemma pad2_one_line n : count_newlines (pad2 n) = 0.
Proof.
  apply digits_one_line. unfold pad2. cbn [forallb].
  now rewrite !digit_is_digit.
Qed.

Lemma dec4_one_line n : count_newlines (dec4 n) = 0.
Proof.
  apply digits_one_line. unfold dec4. cbn [forallb].
  now rewrite !digit_is_digit.
Qed.

Lemma timestamp_one_line now : count_newlines (timestamp now) = 0.
Proof.
  unfold timestamp.
  rewrite !count_newlines_app, !pad2_one_line, dec4_one_line. reflexivity.
Qed.

Lemma log_entry_newlines now sender message :
  count_newlines (log_entry now sender message)
  = S (count_newlines sender + count_newlines message).
Proof.
  unfold log_entry. rewrite !count_newlines_app, timestamp_one_line.
  change (count_newlines (py "[")) with 0.
  change (count_newlines (py "] ")) with 0.
  change (count_newlines (py ": ")) with 0.
  change (count_newlines [newline]) with 1. lia.
Qed.

Lemma log_message_total self sender message now io w :
  exists w', log_message self sender message now io w = inr (self, w').
Proof.
  unfold log_message. destruct io; cbn [open_append_write]; now eexists.
Qed.

(** C9, as the code has it.  For every sender and message, [log_message]
    returns without an exception and leaves the object as it is.  When the
    write succeeds, the log file has grown by exactly the text
    [[<timestamp>] <sender>: <message>] and one line feed, no other file
    has changed and nothing is printed; this text is one line when the
    sender and the message hold no line feed.  When the write fails, the
    error is printed and the call returns all the same. *)
Theorem log_message_appends_entry :
  forall (self : PyPalChatbot) (sender message : str) (now : datetime)
         (io : io_outcome) (w : World),
    exists w',
      log_message self sender message now io w = inr (self, w') /\
      (io = io_ok ->
       fs w' (log_filename self)
       = Some (file_text w (log_filename self) ++
               py "[" ++ timestamp now ++ py "] " ++ sender ++ py ": " ++
               message ++ [newline]) /\
       (forall path, path <> log_filename self -> fs w' path = fs w path) /\
       stdout w' = stdout w) /\
      (count_newlines sender = 0 -> count_newlines message = 0 ->
       count_newlines (log_entry now sender message) = 1) /\
      (forall msg written,
          io = io_open_error msg \/ io = io_write_error msg written ->
          stdout w' = stdout w ++ [py "Error logging message: " ++ msg]).
Proof.
  intros self sender message now io w.
  unfold log_message. destruct io as [|msg|msg written]; cbn [open_append_write].
  - eexists. split; [reflexivity|]. split; [|split].
    + intros _. cbn [append_file fs stdout]. rewrite str_eqb_refl.
      split; [reflexivity|]. split; [|reflexivity].
      intros path Hp. now rewrite (str_eqb_neq _ _ Hp).
    + intros Hs Hm. rewrite log_entry_newlines. lia.
    + intros msg written [H|H]; discriminate.
  - eexists. split; [reflexivity|]. split; [|split].
    + discriminate.
    + intros Hs Hm. rewrite log_entry_newlines. lia.
    + intros msg' written [H|H]; [|discriminate]. now injection H as ->.
  - eexists. split; [reflexivity|]. split; [|split].
    + discriminate.
    + intros Hs Hm. rewrite log_entry_newlines. lia.
    + intros msg' written' [H|H]; [discriminate|]. now injection H as -> _.
Qed.

Lemma log_message_appends_entry_witness :
  exists w',
    log_message (init (py "chat.log")) (py "You") (py "hi there")
                (mkDatetime 2024 3 5 13 7 9) io_ok
                (mkWorld (fun _ => None) [])
    = inr (init (py "chat.log"), w') /\
    fs w' (py "chat.log")
    = Some (py "[2024-03-05 13:07:09] You: hi there" ++ [newline]) /\
    count_newlines (log_entry (mkDatetime 2024 3 5 13 7 9) (py "You")
                              (py "hi there")) = 1.
Proof.
  destruct (log_message_appends_entry (init (py "chat.log")) (py "You")
              (py "hi there") (mkDatetime 2024 3 5 13 7 9) io_ok
              (mkWorld (fun _ => None) []))
    as (w' & E & Hok & Hline & _).
  exists w'. split; [exact E|]. split.
  - destruct (Hok eq_refl) as (Hfs & _). exact Hfs.
  - apply Hline; reflexivity.
Defined.

(** C9, as the specification words it, fails on the welcome that
    [start_conversation] logs: the message holds a line feed, so its entry
    holds two and the file grows by two lines. *)
Lemma log_entry_of_two_lines :
  match start_conversation (init (py "chat.log")) 0
                           (mkDatetime 2024 3 5 13 7 9) io_ok
                           (mkWorld (fun _ => None) []) with
  | inr (_, w') => option_map count_newlines (fs w' (py "chat.log"))
  | inl _ => None
  end = Some 2 /\
  match log_message (init (py "chat.log")) (py "You")
                    (py "one" ++ [newline] ++ py "two")
                    (mkDatetime 2024 3 5 13 7 9) io_ok
                    (mkWorld (fun _ => None) []) with
  | inr (_, w') => option_map count_newlines (fs w' (py "chat.log"))
  | inl _ => None
  end = Some 2.
Proof. split; vm_compute; reflexivity. Qed.

(** ** Shape of a stored name *)

Lemma split_cons_space c t : is_space c = true -> split (c :: t) = split t.
Proof. intros H. cbn [split]. now rewrite H. Qed.

Lemma split_cons_before_space c d t :
  is_space c = false -> is_space d = true ->
  split (c :: d :: t) = [c] :: split (d :: t).
Proof. intros Hc Hd. cbn [split]. now rewrite Hc, Hd. Qed.

Lemma split_cons_word c d t :
  is_space c = false -> is_space d = false ->
  split (c :: d :: t)
  = match split (d :: t) with
    | w :: ws => (c :: w) :: ws
    | [] => [[c]]
    end.
Proof. intros Hc Hd. cbn [split]. now rewrite Hc, Hd. Qed.

Lemma split_single c : is_space c = false -> split [c] = [[c]].
Proof. intros Hc. cbn [split]. now rewrite Hc. Qed.

Lemma length_join_word (c : ascii) (l : list str) :
  length (match l with
          | w :: ws => (c :: w) :: ws
          | [] => [[c]]
          end) = Nat.max 1 (length l).
Proof. destruct l as [|w ws]; reflexivity. Qed.

(** The number of words depends on the places of the blanks only. *)
Lemma split_length_shape u v :
  Forall2 (fun a b => is_space a = is_space b) u v ->
  length (split u) = length (split v).
Proof.
  induction 1 as [|a b u v Hab Huv IH]; [reflexivity|].
  destruct (is_space a) eqn:Ha; symmetry in Hab.
  - now rewrite !split_cons_space.
  - destruct Huv as [|a' b' u' v' Hab' Huv'].
    + now rewrite !split_single.
    + destruct (is_space a') eqn:Ha'; symmetry in Hab'.
      * rewrite !split_cons_before_space by assumption.
        cbn [length]. now rewrite IH.
      * rewrite !split_cons_word by assumption.
        rewrite !length_join_word. now rewrite IH.
Qed.


Lemma title_from_cons b c t :
  title_from b (c :: t) = title_char b c :: title_from (is_alpha c) t.
Proof. reflexivity. Qed.

Lemma title_char_space b c : is_space (title_char b c) = is_space c.
Proof. destruct b; by_chars c. Qed.

Lemma title_char_alpha b c : is_alpha (title_char b c) = is_alpha c.
Proof. destruct b; by_chars c. Qed.

Lemma title_char_blank b c :
  Ascii.eqb (title_char b c) " "%char = Ascii.eqb c " "%char.
Proof. destruct b; by_chars c. Qed.

Lemma title_char_first c :
  is_alpha c = true -> is_upper (title_char false c) = true.
Proof. by_chars c. Qed.

Lemma title_char_next c :
  is_alpha c = true -> is_lower (title_char true c) = true.
Proof. by_chars c. Qed.

Lemma letter_not_space c :
  letter_or_space c = true -> is_space c = false -> is_alpha c = true.
Proof. unfold letter_or_space. by_chars c. Qed.

Lemma title_shape b u :
  Forall2 (fun a c => is_space a = is_space c) (title_from b u) u.
Proof.
  revert b. induction u as [|c t IH]; intros b; [constructor|].
  rewrite title_from_cons. constructor; [apply title_char_space|apply IH].
Qed.

Lemma title_remove_spaces b u :
  forallb is_alpha (remove_spaces (title_from b u))
  = forallb is_alpha (remove_spaces u) /\
  nonempty (remove_spaces (title_from b u)) = nonempty (remove_spaces u).
Proof.
  revert b. induction u as [|c t IH]; intros b; [now split|].
  rewrite title_from_cons. unfold remove_spaces in *. cbn [filter].
  rewrite title_char_blank.
  destruct (Ascii.eqb c " "%char); cbn [negb]; [apply IH|].
  cbn [forallb nonempty]. rewrite title_char_alpha.
  split; [|reflexivity]. f_equal. apply IH.
Qed.

Lemma title_letters b u :
  forallb letter_or_space (title_from b u) = forallb letter_or_space u.
Proof.
  revert b. induction u as [|c t IH]; intros b; [reflexivity|].
  rewrite title_from_cons. cbn [forallb]. rewrite IH. f_equal.
  unfold letter_or_space. now rewrite title_char_alpha, title_char_blank.
Qed.


Lemma title_words u :
  forallb letter_or_space u = true ->
  forallb is_title_word (split (title_from false u)) = true /\
  match u with
  | [] => True
  | c :: _ =>
      if is_alpha c then going_on (split (title_from true u))
      else forallb is_title_word (split (title_from true u)) = true
  end.
Proof.
  induction u as [|c t IH]; [now split|].
  cbn [forallb]. intros H. apply andb_true_iff in H as [Hc Ht].
  specialize (IH Ht). destruct IH as [IH1 IH2].
  rewrite !title_from_cons.
  destruct (is_alpha c) eqn:Ac.
  - (* a letter *)
    assert (S1 : forall b, is_space (title_char b c) = false).
    { intros b. rewrite title_char_space. now apply alpha_not_space. }
    destruct t as [|d t2].
    + cbn [title_from]. rewrite !split_single by apply S1.
      cbn [forallb is_title_word going_on].
      rewrite title_char_first, title_char_next by exact Ac. now split.
    + rewrite title_from_cons in *.
      destruct (is_alpha d) eqn:Ad.
      * assert (S2 : is_space (title_char true d) = false).
        { rewrite title_char_space. now apply alpha_not_space. }
        rewrite !split_cons_word by (apply S1 || exact S2).
        destruct (split (title_char true d :: title_from true t2))
          as [|w ws]; cbn [going_on] in IH2.
        -- cbn [forallb is_title_word going_on].
           rewrite title_char_first, title_char_next by exact Ac. now split.
        -- destruct IH2 as [Hw Hws].
           cbn [forallb is_title_word going_on].
           rewrite title_char_first, title_char_next by exact Ac.
           rewrite Hw, Hws. now split.
      * assert (S2 : is_space (title_char true d) = true).
        { rewrite title_char_space.
          cbn [forallb] in Ht. apply andb_true_iff in Ht as [Hd _].
          destruct (is_space d) eqn:Sd; [reflexivity|].
          rewrite (letter_not_space d Hd Sd) in Ad. discriminate. }
        rewrite !split_cons_before_space by (apply S1 || exact S2).
        cbn [forallb is_title_word going_on].
        rewrite title_char_first, title_char_next by exact Ac.
        rewrite IH2. now split.
  - (* a blank *)
    assert (Sc : forall b, is_space (title_char b c) = true).
    { intros b. rewrite title_char_space.
      destruct (is_space c) eqn:Sc; [reflexivity|].
      rewrite (letter_not_space c Hc Sc) in Ac. discriminate. }
    rewrite !split_cons_space by apply Sc. now split.
Qed.

Lemma remove_spaces_letters u :
  forallb is_alpha (remove_spaces u) = true ->
  forallb letter_or_space u = true.
Proof.
  unfold remove_spaces, letter_or_space.
  induction u as [|c t IH]; [reflexivity|]. cbn [filter forallb].
  destruct (Ascii.eqb c " "%char); cbn [negb].
  - intros H. rewrite orb_true_r. now apply IH.
  - cbn [forallb]. intros H. apply andb_true_iff in H as [-> H]. now apply IH.
Qed.

Lemma isalpha_spec s :
  isalpha s = nonempty s && forallb is_alpha s.
Proof. now destruct s. Qed.

(** A short alphabetic message, title-cased, has the shape of a name. *)
Lemma title_valid_name u :
  short_alpha u = true -> valid_name (title u) = true.
Proof.
  unfold short_alpha, valid_name, title. intros H.
  apply andb_true_iff in H as [Hlen Ha].
  rewrite isalpha_spec in Ha. apply andb_true_iff in Ha as [Hne Hal].
  destruct (title_remove_spaces false u) as [E1 E2].
  rewrite isalpha_spec, E1, E2, Hne, Hal.
  rewrite (split_length_shape _ _ (title_shape false u)), Hlen.
  rewrite title_letters, (remove_spaces_letters u Hal).
  rewrite (proj1 (title_words u (remove_spaces_letters u Hal))).
  destruct u as [|c t]; [discriminate|reflexivity].
Qed.

Lemma split_word w :
  w <> [] -> forallb is_alpha w = true -> split w = [w].
Proof.
  induction w as [|c t IH]; [congruence|]. intros _ H.
  cbn [forallb] in H. apply andb_true_iff in H as [Hc Ht].
  destruct t as [|d t'].
  - apply split_single. now apply alpha_not_space.
  - cbn [forallb] in Ht. pose proof Ht as Ht'.
    apply andb_true_iff in Ht' as [Hd _].
    rewrite split_cons_word by now apply alpha_not_space.
    rewrite IH; [reflexivity|discriminate|exact Ht].
Qed.

Lemma remove_spaces_word w :
  forallb is_alpha w = true -> remove_spaces w = w.
Proof.
  unfold remove_spaces. induction w as [|c t IH]; [reflexivity|].
  cbn [forallb filter]. intros H. apply andb_true_iff in H as [Hc Ht].
  rewrite (alpha_not_blank c Hc). cbn [negb]. now rewrite IH.
Qed.

Lemma isalpha_short_alpha w : isalpha w = true -> short_alpha w = true.
Proof.
  intros H. pose proof H as H'. rewrite isalpha_spec in H'.
  apply andb_true_iff in H' as [Hne Hal].
  unfold short_alpha. rewrite (remove_spaces_word w Hal), H.
  rewrite split_word; [reflexivity| |exact Hal].
  destruct w; [discriminate|discriminate].
Qed.

Lemma scan_patterns_some ps u l n :
  scan_patterns ps u l = inr (Some n) ->
  exists c, isalpha c = true /\ n = title c.
Proof.
  induction ps as [|p ps IH]; cbn [scan_patterns]; [discriminate|].
  destruct (contains p l); [|exact IH].
  destruct (candidate_total p u l) as [c ->]. cbn [bind].
  destruct c as [c|]; [|exact IH].
  destruct (isalpha c) eqn:Hc; [|exact IH].
  intros E. injection E as <-. now exists c.
Qed.

Lemma detect_name_valid s n :
  detect_name_in_message s = inr (Some n) -> valid_name n = true.
Proof.
  unfold detect_name_in_message.
  destruct (scan_patterns_total name_patterns (strip s) (lower (strip s)))
    as [o Ho]. rewrite Ho. cbn [bind].
  destruct o as [m|].
  - intros E. injection E as <-.
    destruct (scan_patterns_some _ _ _ _ Ho) as (c & Hc & ->).
    now apply title_valid_name, isalpha_short_alpha.
  - destruct (short_alpha (strip s)) eqn:Hs; [|discriminate].
    intros E. injection E as <-. now apply title_valid_name.
Qed.

(** C10, as the code has it.  For input of ASCII characters, the name in
    the object is unset or has the shape of a name: not empty, at most two
    words, letters and spaces only, alphabetic once the spaces are
    removed, each word an upper-case letter followed by lower-case
    letters.  It holds after [__init__], every name that
    [detect_name_in_message] returns for such input has this shape, and
    [generate_response] and [log_message] keep it.  For input of any
    characters, a name returned is the [title] of an alphabetic word, or
    of the trimmed message when it has at most two words and is alphabetic
    without its spaces.  ([detect_name_in_message] is the generic
    extraction at the ASCII characters.) *)
Theorem user_name_shape :
  (forall log, name_ok (init log)) /\
  (forall user_input n,
      ascii_text user_input = true ->
      detect_name_in_message user_input = inr (Some n) ->
      valid_name n = true) /\
  (forall self user_input r clk reply self',
      name_ok self ->
      ascii_text user_input = true ->
      generate_response self user_input r clk = inr (reply, self') ->
      name_ok self') /\
  (forall self sender message now io w self' w',
      name_ok self ->
      log_message self sender message now io w = inr (self', w') ->
      name_ok self') /\
  (forall user_input,
      Uni.detect_name_in_message Uni.ascii_chars user_input
      = detect_name_in_message user_input) /\
  (forall (A : Type) (db : Uni.chars A) (user_input n : list A),
      Uni.detect_name_in_message db user_input = inr (Some n) ->
      exists x,
        n = Uni.str_title db x /\
        (Uni.isalpha db x = true \/
         (x = Uni.strip db user_input /\
          length (Uni.split db x) <= 2 /\
          Uni.isalpha db (Uni.remove_spaces db x) = true))).
Proof.
  split; [intros log; exact I|].
  split; [intros s n _; exact (detect_name_valid s n)|]. split; [|split].
  - intros self s r clk reply self' Hok _ E.
    destruct (negb (truthy (user_name self)) && negb (conversation_started self))
      eqn:G.
    + destruct (generate_response_first self s r clk G)
        as (o & Ho & [(T & reply' & E' & _)|(T & E')]);
        rewrite E' in E; injection E as _ <-.
      * unfold name_ok. cbn [user_name].
        destruct o as [n|]; [|exact I]. exact (detect_name_valid s n Ho).
      * exact Hok.
    + destruct (generate_response_started self s r clk G) as (reply' & E' & _).
      rewrite E' in E. now injection E as _ <-.
  - intros self sender message now io w self' w' Hok E.
    destruct (log_message_total self sender message now io w) as [w1 E1].
    rewrite E1 in E. now injection E as <- _.
  - split; [exact generic_detect_name|].
    intros A db s n E.
    destruct (generic_detect_some db s n E) as (x & -> & [Hx|[-> Hs]]).
    + exists x. split; [reflexivity|now left].
    + exists (Uni.strip db s). split; [reflexivity|]. right.
      unfold Uni.short_alpha in Hs. apply andb_true_iff in Hs as [Hl Ha].
      split; [reflexivity|]. split; [now apply Nat.leb_le|exact Ha].
Qed.

Lemma user_name_shape_witness :
  valid_name (py "Bob") = true /\
  name_ok (mkBot (Some (py "I Am")) true (py "chat.log")).
Proof.
  destruct user_name_shape as (_ & Hd & Hg & _). split.
  - apply (Hd (py "i'm bob!") (py "Bob")); reflexivity.
  - apply (Hg (init (py "chat.log")) (py "I am") 0
              (fun _ => mkDatetime 2024 3 5 13 7 9)
              (py "Nice to meet you, I Am! 😊 How can I help you today?")).
    + exact I.
    + reflexivity.
    + reflexivity.
Defined.

(** C10, as the claim words it, fails outside ASCII.  The one-word message
    [K a U+02BB i u l a n i] is alphabetic ([U+02BB], a modifier letter, is
    alphabetic and has no case), and [title] starts a new word after the
    uncased letter: the name returned is [K a U+02BB I u l a n i], one word
    whose letters after the first are not all lower case.  The message
    [U+01F0] is alphabetic, and its title-case form is [J] followed by
    the combining mark [U+030C], which is not alphabetic. *)
Lemma stored_name_outside_ascii :
  (Uni.detect_name_in_message Uni.ucd_sample
     (Uni.text (py "Ka") ++ [699%N] ++ Uni.text (py "iulani"))
   = inr (Some (Uni.text (py "Ka") ++ [699%N] ++ Uni.text (py "Iulani"))) /\
   Uni.split Uni.ucd_sample
     (Uni.text (py "Ka") ++ [699%N] ++ Uni.text (py "Iulani"))
   = [Uni.text (py "Ka") ++ [699%N] ++ Uni.text (py "Iulani")] /\
   Uni.str_lower Uni.ucd_sample
     (Uni.text (py "a") ++ [699%N] ++ Uni.text (py "Iulani"))
   <> Uni.text (py "a") ++ [699%N] ++ Uni.text (py "Iulani")) /\
  (Uni.detect_name_in_message Uni.ucd_sample [496%N]
   = inr (Some [74%N; 780%N]) /\
   Uni.ch_isalpha Uni.ucd_sample 780%N = false).
Proof.
  split; [|split; vm_compute; reflexivity].
  split; [vm_compute; reflexivity|].
  split; [vm_compute; reflexivity|].
  vm_compute. discriminate.
Qed.

(** * Further properties of the engine *)

(** ** Blanks around a message *)

Lemma lstrip_app_blank p a x :
  forallb p a = true -> lstrip_by p (a ++ x) = lstrip_by p x.
Proof.
  induction a as [|c a IH]; [reflexivity|]. cbn [forallb app lstrip_by].
  intros H. apply andb_true_iff in H as [-> H]. now apply IH.
Qed.

Lemma lstrip_all_blank p a : forallb p a = true -> lstrip_by p a = [].
Proof.
  intros H. rewrite <- (app_nil_r a). now rewrite lstrip_app_blank.
Qed.

Lemma forallb_rev_true (p : ascii -> bool) (l : str) :
  forallb p l = true -> forallb p (rev l) = true.
Proof.
  rewrite !forallb_forall. intros H c Hc. apply H. now apply in_rev.
Qed.

Lemma rstrip_app_blank p x b :
  forallb p b = true -> rstrip_by p (x ++ b) = rstrip_by p x.
Proof.
  intros H. unfold rstrip_by. rewrite rev_app_distr.
  now rewrite lstrip_app_blank by now apply forallb_rev_true.
Qed.

Lemma lstrip_app p x b :
  lstrip_by p (x ++ b)
  = match lstrip_by p x with
    | [] => lstrip_by p b
    | c :: t => (c :: t) ++ b
    end.
Proof.
  induction x as [|c x IH]; cbn [app lstrip_by].
  - now destruct (lstrip_by p b).
  - now destruct (p c).
Qed.

Lemma strip_by_pad p a s b :
  forallb p a = true -> forallb p b = true ->
  strip_by p (a ++ s ++ b) = strip_by p s.
Proof.
  intros Ha Hb. unfold strip_by.
  rewrite (lstrip_app_blank p a _ Ha), lstrip_app.
  destruct (lstrip_by p s) as [|c t].
  - now rewrite (lstrip_all_blank p b Hb).
  - now apply rstrip_app_blank.
Qed.

Lemma strip_pad a s b :
  forallb is_space a = true -> forallb is_space b = true ->
  strip (a ++ s ++ b) = strip s.
Proof. apply strip_by_pad. Qed.

Lemma lower_app a b : lower (a ++ b) = lower a ++ lower b.
Proof. apply map_app. Qed.

Lemma lower_blank a :
  forallb is_space a = true -> forallb is_space (lower a) = true.
Proof.
  induction a as [|c a IH]; [reflexivity|]. cbn [forallb lower map].
  rewrite space_lower_char. intros H. apply andb_true_iff in H as [-> H].
  now apply IH.
Qed.

Lemma any_in_pad ps a s b :
  forallb (trim_safe is_space) ps = true ->
  forallb is_space a = true -> forallb is_space b = true ->
  any_in ps (lower (a ++ s ++ b)) = any_in ps (lower s).
Proof.
  intros Hps Ha Hb.
  rewrite <- (any_in_strip ps (lower (a ++ s ++ b)) Hps).
  rewrite <- (any_in_strip ps (lower s) Hps).
  rewrite !lower_app. now rewrite strip_pad by now apply lower_blank.
Qed.

Lemma detect_name_pad a s b :
  forallb is_space a = true -> forallb is_space b = true ->
  detect_name_in_message (a ++ s ++ b) = detect_name_in_message s.
Proof.
  intros Ha Hb. unfold detect_name_in_message. now rewrite strip_pad.
Qed.

Lemma intent_responses_pad n a s b clk :
  forallb is_space a = true -> forallb is_space b = true ->
  intent_responses n (a ++ s ++ b) clk = intent_responses n s clk.
Proof.
  intros Ha Hb. unfold intent_responses.
  rewrite !detect_goodbye_lower.
  unfold detect_time_request, detect_greeting, detect_how_are_you.
  now rewrite !any_in_pad by (reflexivity || assumption).
Qed.

(** X1. Blanks before and after the message change nothing: the engine gives
    the same reply and the same object for the padded message. *)
Theorem generate_response_ignores_padding :
  forall (self : PyPalChatbot) (a user_input b : str) (r : nat)
         (clk : nat -> datetime),
    forallb is_space a = true ->
    forallb is_space b = true ->
    generate_response self (a ++ user_input ++ b) r clk
    = generate_response self user_input r clk.
Proof.
  intros self a s b r clk Ha Hb. unfold generate_response.
  now rewrite detect_name_pad, intent_responses_pad.
Qed.

Lemma generate_response_ignores_padding_witness :
  generate_response (init (py "chat.log"))
                    (py "   " ++ py "my name is Alice" ++ [newline]) 1
                    (fun _ => mkDatetime 2024 3 5 13 7 9)
  = generate_response (init (py "chat.log")) (py "my name is Alice") 1
                      (fun _ => mkDatetime 2024 3 5 13 7 9).
Proof.
  apply generate_response_ignores_padding; reflexivity.
Defined.

(** ** Phrases inside longer messages *)

Lemma contains_app p a s b :
  contains p s = true -> contains p (a ++ s ++ b) = true.
Proof.
  rewrite !contains_iff. intros (x & y & ->).
  exists (a ++ x), (y ++ b). now rewrite !app_assoc.
Qed.

Lemma contains_trans q p s :
  contains q p = true -> contains p s = true -> contains q s = true.
Proof.
  rewrite !contains_iff. intros (x & y & ->) (a & b & ->).
  exists (a ++ x), (y ++ b). now rewrite !app_assoc.
Qed.

Lemma any_in_app ps a s b :
  any_in ps s = true -> any_in ps (a ++ s ++ b) = true.
Proof.
  unfold any_in. rewrite !existsb_exists. intros (p & Hin & Hp).
  exists p. split; [exact Hin|now apply contains_app].
Qed.

(** X3. A detector that fires on a message fires on every message that holds
    it, whatever stands before and after: matching is by substring, not
    by word. *)
Theorem detectors_fire_inside_longer_messages :
  forall (a user_input b : str),
    (detect_goodbye user_input = true ->
     detect_goodbye (a ++ user_input ++ b) = true) /\
    (detect_time_request user_input = true ->
     detect_time_request (a ++ user_input ++ b) = true) /\
    (detect_greeting user_input = true ->
     detect_greeting (a ++ user_input ++ b) = true) /\
    (detect_how_are_you user_input = true ->
     detect_how_are_you (a ++ user_input ++ b) = true).
Proof.
  intros a s b. rewrite !detect_goodbye_lower.
  unfold detect_time_request, detect_greeting, detect_how_are_you.
  rewrite !lower_app. repeat split; apply any_in_app.
Qed.

Lemma detectors_fire_inside_longer_messages_witness :
  detect_greeting (py "t" ++ py "hi" ++ py "s") = true /\
  detect_goodbye (py "the week" ++ py "end" ++ py " was fine") = true.
Proof.
  split.
  - apply (proj1 (proj2 (proj2 (detectors_fire_inside_longer_messages
                                   (py "t") (py "hi") (py "s"))))).
    reflexivity.
  - apply (proj1 (detectors_fire_inside_longer_messages
                    (py "the week") (py "end") (py " was fine"))).
    reflexivity.
Defined.

(** ** Phrases that other phrases cover *)

Lemma any_in_cover ps qs s :
  forallb (fun p => existsb (fun q => contains q p) qs) ps = true ->
  forallb (fun q => existsb (str_eqb q) ps) qs = true ->
  any_in ps s = any_in qs s.
Proof.
  rewrite !forallb_forall. intros Hcov Hsub.
  apply eq_true_iff_eq. unfold any_in. rewrite !existsb_exists. split.
  - intros (p & Hin & Hp). specialize (Hcov p Hin).
    apply existsb_exists in Hcov as (q & Hq & Hqp).
    exists q. split; [exact Hq|exact (contains_trans q p s Hqp Hp)].
  - intros (q & Hin & Hq). specialize (Hsub q Hin).
    apply existsb_exists in Hsub as (p & Hp & E).
    apply str_eqb_eq in E as <-. now exists q.
Qed.

(** X4. Four of the six time keywords, ["goodbye"] and ["hiya"] decide
    nothing: each holds a shorter phrase of its own list.  A message asks
    for the time exactly when its lower-cased text holds ["time"] or
    ["clock"]; the farewell and greeting detectors give the same answers
    without ["goodbye"] and without ["hiya"]. *)
Theorem covered_phrases_are_redundant :
  forall user_input : str,
    detect_time_request user_input
    = contains (py "time") (lower user_input) ||
      contains (py "clock") (lower user_input) /\
    detect_goodbye user_input
    = any_in [py "bye"; py "see you"; py "farewell"; py "exit"; py "quit";
              py "stop"; py "close"; py "end"] (lower user_input) /\
    detect_greeting user_input
    = any_in [py "hi"; py "hello"; py "hey"; py "good morning";
              py "good afternoon"; py "good evening"; py "sup"; py "yo"]
             (lower user_input).
Proof.
  intros s. split; [|split].
  - unfold detect_time_request.
    rewrite (any_in_cover time_keywords [py "time"; py "clock"])
      by reflexivity.
    unfold any_in. cbn [existsb]. now rewrite orb_false_r.
  - rewrite detect_goodbye_lower. now apply any_in_cover.
  - unfold detect_greeting. now apply any_in_cover.
Qed.

(** ** Letter case *)

Lemma lower_char_idem c : lower_char (lower_char c) = lower_char c.
Proof. by_chars c. Qed.

Lemma lower_idem s : lower (lower s) = lower s.
Proof.
  unfold lower. rewrite map_map. apply map_ext. exact lower_char_idem.
Qed.

Lemma alpha_lower_char c : is_alpha (lower_char c) = is_alpha c.
Proof. by_chars c. Qed.

Lemma blank_lower_char c :
  Ascii.eqb (lower_char c) " "%char = Ascii.eqb c " "%char.
Proof. by_chars c. Qed.

Lemma punct_lower_char c :
  mem_char (py ".,!?") (lower_char c) = mem_char (py ".,!?") c.
Proof. by_chars c. Qed.

Lemma title_char_lower b c : title_char b (lower_char c) = title_char b c.
Proof. destruct b; by_chars c. Qed.

Lemma slice_from_lower i u : slice_from i (lower u) = lower (slice_from i u).
Proof.
  unfold slice_from, lower. rewrite length_map. apply skipn_map.
Qed.

Lemma lstrip_map (f : ascii -> ascii) (q : ascii -> bool) s :
  (forall c, q (f c) = q c) ->
  lstrip_by q (map f s) = map f (lstrip_by q s).
Proof.
  intros Hq. induction s as [|c s IH]; [reflexivity|].
  cbn [map lstrip_by]. rewrite Hq. now destruct (q c).
Qed.

Lemma strip_by_map (f : ascii -> ascii) (q : ascii -> bool) s :
  (forall c, q (f c) = q c) ->
  strip_by q (map f s) = map f (strip_by q s).
Proof.
  intros Hq. unfold strip_by, rstrip_by.
  now rewrite (lstrip_map f q s Hq), <- map_rev, (lstrip_map f q _ Hq), map_rev.
Qed.

Lemma split_lower s : split (lower s) = map lower (split s).
Proof.
  induction s as [|c t IH]; [reflexivity|].
  change (lower (c :: t)) with (lower_char c :: lower t).
  destruct (is_space c) eqn:Hc.
  - rewrite !split_cons_space by now rewrite ?space_lower_char. exact IH.
  - destruct t as [|d t'].
    + rewrite !split_single by now rewrite ?space_lower_char. reflexivity.
    + change (lower (d :: t')) with (lower_char d :: lower t') in *.
      destruct (is_space d) eqn:Hd.
      * rewrite !split_cons_before_space by now rewrite ?space_lower_char.
        cbn [map]. now rewrite IH.
      * rewrite !split_cons_word by now rewrite ?space_lower_char.
        rewrite IH. now destruct (split (d :: t')).
Qed.

Lemma all_alpha_lower s : forallb is_alpha (lower s) = forallb is_alpha s.
Proof.
  induction s as [|c s IH]; [reflexivity|].
  change (lower (c :: s)) with (lower_char c :: lower s).
  cbn [forallb]. now rewrite alpha_lower_char, IH.
Qed.

Lemma isalpha_lower s : isalpha (lower s) = isalpha s.
Proof.
  rewrite !isalpha_spec, all_alpha_lower. now destruct s.
Qed.

Lemma title_from_lower b s : title_from b (lower s) = title_from b s.
Proof.
  revert b. induction s as [|c s IH]; intros b; [reflexivity|].
  change (lower (c :: s)) with (lower_char c :: lower s).
  rewrite !title_from_cons, title_char_lower, alpha_lower_char. now rewrite IH.
Qed.

Lemma remove_spaces_lower s : remove_spaces (lower s) = lower (remove_spaces s).
Proof.
  unfold remove_spaces. induction s as [|c s IH]; [reflexivity|].
  change (lower (c :: s)) with (lower_char c :: lower s).
  cbn [filter]. rewrite blank_lower_char.
  destruct (Ascii.eqb c " "%char); cbn [negb]; [exact IH|].
  change (lower (c :: ?x)) with (lower_char c :: lower x). now rewrite IH.
Qed.

Lemma short_alpha_lower s : short_alpha (lower s) = short_alpha s.
Proof.
  unfold short_alpha.
  now rewrite split_lower, length_map, remove_spaces_lower, isalpha_lower.
Qed.

Lemma candidate_lower p u l :
  candidate p (lower u) l
  = match candidate p u l with
    | inr (Some c) => inr (Some (lower c))
    | other => other
    end.
Proof.
  unfold candidate. rewrite slice_from_lower, strip_lower.
  remember (strip (slice_from (find p l + Z.of_nat (length p)) u)) as x.
  destruct x as [|a x']; [reflexivity|].
  change (nonempty (lower (a :: x'))) with true. cbn [nonempty].
  rewrite split_lower.
  destruct (split (a :: x')) as [|w ws]; [reflexivity|].
  cbn [map item0 ret bind]. unfold strip_chars, lower.
  now rewrite (strip_by_map lower_char _ w punct_lower_char).
Qed.

Lemma scan_patterns_lower ps u l :
  scan_patterns ps (lower u) l = scan_patterns ps u l.
Proof.
  induction ps as [|p ps IH]; [reflexivity|]. cbn [scan_patterns].
  destruct (contains p l); [|exact IH].
  rewrite candidate_lower.
  destruct (candidate p u l) as [e|[c|]]; cbn [bind]; [reflexivity| |exact IH].
  rewrite isalpha_lower. unfold title. rewrite title_from_lower.
  now destruct (isalpha c).
Qed.

Lemma detect_name_lower s :
  detect_name_in_message (lower s) = detect_name_in_message s.
Proof.
  unfold detect_name_in_message.
  rewrite strip_lower, lower_idem, scan_patterns_lower, short_alpha_lower.
  unfold title. now rewrite title_from_lower.
Qed.

Lemma intent_responses_lower n s clk :
  intent_responses n (lower s) clk = intent_responses n s clk.
Proof.
  unfold intent_responses, detect_goodbye, detect_time_request,
    detect_greeting, detect_how_are_you.
  now rewrite lower_idem.
Qed.

Lemma generate_response_lower self s r clk :
  generate_response self (lower s) r clk = generate_response self s r clk.
Proof.
  unfold generate_response.
  now rewrite detect_name_lower, intent_responses_lower.
Qed.

(** X2. On messages of ASCII characters the letter case decides nothing:
    two such messages that differ in letter case only get the same reply
    and leave the same object, on the first turn, where the name is
    extracted, as on every later one. *)
Theorem generate_response_ignores_case :
  forall (self : PyPalChatbot) (s1 s2 : str) (r : nat)
         (clk : nat -> datetime),
    ascii_text s1 = true ->
    ascii_text s2 = true ->
    lower s1 = lower s2 ->
    generate_response self s1 r clk = generate_response self s2 r clk.
Proof.
  intros self s1 s2 r clk _ _ E.
  rewrite <- (generate_response_lower self s1), <- (generate_response_lower self s2).
  now rewrite E.
Qed.

Lemma generate_response_ignores_case_witness :
  generate_response (init (py "chat.log")) (py "MY NAME IS alice") 2
                    (fun _ => mkDatetime 2024 3 5 13 7 9)
  = generate_response (init (py "chat.log")) (py "my name is ALICE") 2
                      (fun _ => mkDatetime 2024 3 5 13 7 9).
Proof.
  apply generate_response_ignores_case; reflexivity.
Defined.

(** ** Introducing oneself *)

Lemma rstrip_last p x c :
  p c = false -> rstrip_by p (x ++ [c]) = x ++ [c].
Proof.
  intros Hc. unfold rstrip_by. rewrite rev_app_distr. cbn [rev app lstrip_by].
  rewrite Hc. cbn [rev]. now rewrite rev_involutive.
Qed.

Lemma rstrip_keeps_app p x y :
  y <> [] -> (forall c, In c y -> p c = false) ->
  rstrip_by p (x ++ y) = x ++ y.
Proof.
  intros Hne Hall. destruct (exists_last Hne) as (y' & c & ->).
  rewrite app_assoc. apply rstrip_last, Hall, in_or_app. right. now left.
Qed.

Lemma rstrip_keeps p x :
  x <> [] -> (forall c, In c x -> p c = false) -> rstrip_by p x = x.
Proof. apply (rstrip_keeps_app p [] x). Qed.

Lemma lstrip_keeps p c x : p c = false -> lstrip_by p (c :: x) = c :: x.
Proof. intros Hc. cbn [lstrip_by]. now rewrite Hc. Qed.

Lemma split_unbroken x :
  x <> [] -> (forall c, In c x -> is_space c = false) -> split x = [x].
Proof.
  induction x as [|c t IH]; [congruence|]. intros _ Hall.
  assert (Hc : is_space c = false) by (apply Hall; now left).
  destruct t as [|d t'].
  - now apply split_single.
  - assert (Hd : is_space d = false) by (apply Hall; right; now left).
    rewrite split_cons_word by assumption.
    rewrite IH; [reflexivity|discriminate|].
    intros e He. apply Hall. now right.
Qed.

Lemma punct_not_space c : mem_char (py ".,!?") c = true -> is_space c = false.
Proof. by_chars c. Qed.

Lemma alpha_not_punct c : is_alpha c = true -> mem_char (py ".,!?") c = false.
Proof. by_chars c. Qed.

Lemma all_alpha_in w c : forallb is_alpha w = true -> In c w -> is_alpha c = true.
Proof. intros H. now apply forallb_forall. Qed.

(** The name in the message ["my name is " ++ w ++ punct]. *)
Lemma detect_name_my_name_is w punct :
  isalpha w = true ->
  forallb (mem_char (py ".,!?")) punct = true ->
  detect_name_in_message (py "my name is " ++ w ++ punct)
  = inr (Some (title w)).
Proof.
  intros Hw Hp. rewrite <- detect_name_lower.
  rewrite isalpha_spec in Hw. apply andb_true_iff in Hw as [Hne Hal].
  destruct w as [|a w']; [discriminate|]. clear Hne.
  assert (Ha : is_alpha a = true) by (apply (all_alpha_in _ _ Hal); now left).
  assert (Hns : forall c, In c ((a :: w') ++ punct) -> is_space c = false).
  { intros c Hc. apply in_app_or in Hc as [Hc|Hc].
    - apply alpha_not_space, (all_alpha_in _ _ Hal Hc).
    - apply punct_not_space. rewrite forallb_forall in Hp. now apply Hp. }
  assert (Hlns : forall c, In c (lower ((a :: w') ++ punct)) -> is_space c = false).
  { intros c Hc. unfold lower in Hc. apply in_map_iff in Hc as (d & <- & Hd).
    rewrite space_lower_char. now apply Hns. }
  set (u := lower (py "my name is " ++ (a :: w') ++ punct)).
  assert (Eu : u = py "my name is " ++ lower ((a :: w') ++ punct)).
  { unfold u. now rewrite lower_app. }
  assert (Es : strip u = u).
  { unfold strip, strip_by. rewrite Eu.
    change (py "my name is " ++ ?x) with ("m"%char :: py "y name is " ++ x).
    rewrite lstrip_keeps by reflexivity.
    change ("m"%char :: py "y name is " ++ ?x) with (py "my name is " ++ x).
    apply rstrip_keeps_app; [discriminate|exact Hlns]. }
  unfold detect_name_in_message. rewrite Es.
  assert (El : lower u = u) by apply lower_idem.
  rewrite El.
  assert (Ec : candidate (py "my name is") u u
               = inr (Some (lower (a :: w')))).
  { unfold candidate.
    replace (find (py "my name is") u) with 0%Z by now rewrite Eu.
    replace (slice_from (0 + Z.of_nat (length (py "my name is"))) u)
      with (" "%char :: lower ((a :: w') ++ punct)) by now rewrite Eu.
    assert (Est : strip (" "%char :: lower ((a :: w') ++ punct))
                  = lower ((a :: w') ++ punct)).
    { unfold strip, strip_by. change (lstrip_by is_space (" "%char :: ?x))
        with (lstrip_by is_space x).
      change (lower ((a :: w') ++ punct))
        with (lower_char a :: lower (w' ++ punct)) at 1.
      rewrite lstrip_keeps by (apply Hlns; now left).
      apply rstrip_keeps; [discriminate|exact Hlns]. }
    assert (Esc : strip_chars (py ".,!?") (lower ((a :: w') ++ punct))
                  = lower (a :: w')).
    { rewrite lower_app. unfold strip_chars, strip_by.
      change (lower (a :: w') ++ lower punct)
        with (lower_char a :: lower w' ++ lower punct).
      rewrite lstrip_keeps
        by (apply alpha_not_punct; now rewrite alpha_lower_char).
      change (lower_char a :: lower w' ++ lower punct)
        with (lower (a :: w') ++ lower punct).
      rewrite rstrip_app_blank.
      - apply rstrip_keeps; [discriminate|].
        intros c Hc. unfold lower in Hc.
        apply in_map_iff in Hc as (d & <- & Hd).
        rewrite punct_lower_char. apply alpha_not_punct.
        exact (all_alpha_in _ _ Hal Hd).
      - clear -Hp. induction punct as [|c punct IH]; [reflexivity|].
        cbn [forallb] in Hp. apply andb_true_iff in Hp as [Hc Hp].
        change (lower (c :: punct)) with (lower_char c :: lower punct).
        cbn [forallb]. now rewrite punct_lower_char, Hc, IH. }
    rewrite Est.
    change (nonempty (lower ((a :: w') ++ punct))) with true. cbn iota.
    rewrite split_unbroken by (exact Hlns || discriminate).
    unfold item0, bind, ret. now rewrite Esc. }
  unfold name_patterns. cbn [scan_patterns].
  replace (contains (py "my name is") u) with true by now rewrite Eu.
  rewrite Ec. cbn [bind]. rewrite isalpha_lower.
  rewrite isalpha_spec, Hal. cbn [nonempty andb bind ret].
  unfold title. now rewrite title_from_lower.
Qed.

(** X5. Round trip of an introduction, on ASCII text: a message of ASCII
    characters that reads, up to letter case and blanks around it,
    ["my name is W"] with a word [W] of ASCII letters and any run of
    [.,!?] after it, gives the name [W] in title case; on the first turn
    the object stores it. *)
Theorem my_name_is_round_trip :
  forall (user_input a b w punct : str) (log : str) (r : nat)
         (clk : nat -> datetime),
    ascii_text user_input = true ->
    ascii_text w = true ->
    isalpha w = true ->
    forallb (mem_char (py ".,!?")) punct = true ->
    forallb is_space a = true ->
    forallb is_space b = true ->
    lower user_input = lower (a ++ (py "my name is " ++ w ++ punct) ++ b) ->
    detect_name_in_message user_input = inr (Some (title w)) /\
    exists reply,
      generate_response (init log) user_input r clk
      = inr (reply, mkBot (Some (title w)) true log).
Proof.
  intros s a b w punct log r clk _ _ Hw Hp Ha Hb E.
  assert (D : detect_name_in_message s = inr (Some (title w))).
  { rewrite <- detect_name_lower, E, detect_name_lower.
    rewrite detect_name_pad by assumption.
    now apply detect_name_my_name_is. }
  split; [exact D|].
  destruct (first_turn_stores log s r clk _ D) as [reply E'].
  exists reply. rewrite E'. do 3 f_equal.
  rewrite isalpha_spec in Hw. destruct w; [discriminate|reflexivity].
Qed.

Lemma my_name_is_round_trip_witness :
  detect_name_in_message (py "  My Name Is ALICE!! ")
  = inr (Some (title (py "ALICE"))) /\
  exists reply,
    generate_response (init (py "chat.log")) (py "  My Name Is ALICE!! ") 0
                      (fun _ => mkDatetime 2024 3 5 13 7 9)
    = inr (reply, mkBot (Some (title (py "ALICE"))) true (py "chat.log")).
Proof.
  apply (my_name_is_round_trip (py "  My Name Is ALICE!! ") (py "  ") (py " ")
           (py "ALICE") (py "!!")); reflexivity.
Defined.

(** ** The name in the replies *)

Lemma contains_here n b : contains n (n ++ b) = true.
Proof. apply contains_iff. now exists [], b. Qed.

Lemma contains_later n c t : contains n t = true -> contains n (c :: t) = true.
Proof. intros H. cbn [contains]. rewrite H. apply orb_true_r. Qed.

Lemma name_responses_hold_name m reply :
  In reply (name_responses (Some m)) -> contains m reply = true.
Proof.
  unfold name_responses. cbn [name_text].
  intros H;
    repeat (destruct H as [<-|H];
      [(cbn [py String.list_ascii_of_string app];
       repeat first [apply contains_here | apply contains_later])|]);
    destruct H.
Qed.

Lemma name_slot_named m : nonempty m = true -> name_slot (Some m) = py ", " ++ m.
Proof. intros H. unfold name_slot. cbn [truthy name_text]. now rewrite H. Qed.

Lemma named_replies_hold_name m s clk reply :
  nonempty m = true ->
  intent_of s <> TimeQuery ->
  In reply (intent_responses (Some m) s clk) ->
  contains m reply = true.
Proof.
  rewrite intent_responses_variants. intros Hm Hi.
  destruct (intent_of s); [|congruence| | |]; cbn [variants];
    unfold goodbye_responses, greeting_responses, how_are_you_responses,
      default_responses, greeting_responses_named, default_responses_named;
    cbn [truthy name_text]; rewrite ?Hm, ?(name_slot_named m Hm);
    intros H;
    repeat (destruct H as [<-|H];
      [(cbn [py String.list_ascii_of_string app];
       repeat first [apply contains_here | apply contains_later])|]);
    destruct H.
Qed.

(** X6. Whenever the first turn extracts a name, the reply is one of the four
    acknowledgments and holds that name, and the object stores it with the
    conversation-started flag set. *)
Theorem first_reply_holds_the_name :
  forall (self : PyPalChatbot) (user_input n : str) (r : nat)
         (clk : nat -> datetime),
    user_name self = None ->
    conversation_started self = false ->
    detect_name_in_message user_input = inr (Some n) ->
    exists reply,
      generate_response self user_input r clk
      = inr (reply, mkBot (Some n) true (log_filename self)) /\
      In reply (name_responses (Some n)) /\
      contains n reply = true.
Proof.
  intros self s n r clk Hn Hc Hd.
  assert (G : negb (truthy (user_name self)) && negb (conversation_started self)
              = true) by now rewrite Hn, Hc.
  pose proof (detect_name_valid s n Hd) as V.
  assert (Hne : nonempty n = true) by (destruct n; [discriminate|reflexivity]).
  destruct (generate_response_first self s r clk G)
    as (o & Ho & [(_ & reply & E & Hin)|(T & _)]);
    rewrite Hd in Ho; injection Ho as <-; [|cbn [truthy] in T; congruence].
  exists reply. split; [exact E|]. split; [exact Hin|].
  now apply name_responses_hold_name.
Qed.

Lemma first_reply_holds_the_name_witness :
  exists reply,
    generate_response (init (py "chat.log")) (py "call me sam.") 3
                      (fun _ => mkDatetime 2024 3 5 13 7 9)
    = inr (reply, mkBot (Some (py "Sam")) true (py "chat.log")) /\
    In reply (name_responses (Some (py "Sam"))) /\
    contains (py "Sam") reply = true.
Proof.
  apply (first_reply_holds_the_name (init (py "chat.log")) (py "call me sam.")
           (py "Sam") 3 (fun _ => mkDatetime 2024 3 5 13 7 9));
    reflexivity.
Defined.

(** X7. Once a name is stored, every reply but the time reply holds it: the
    farewell, greeting, "how are you" and fallback variants all address
    the user by the stored name, whatever the name, the input and the
    draw. *)
Theorem later_replies_hold_the_name :
  forall (self : PyPalChatbot) (n user_input : str) (r : nat)
         (clk : nat -> datetime),
    user_name self = Some n ->
    n <> [] ->
    first_matching_intent user_input <> TimeQuery ->
    exists reply,
      generate_response self user_input r clk = inr (reply, self) /\
      contains n reply = true.
Proof.
  intros self n s r clk Hn Hne Hi.
  assert (Hm : nonempty n = true) by (destruct n; [congruence|reflexivity]).
  assert (T : truthy (user_name self) = true) by now rewrite Hn.
  destruct (generate_response_after_first self s r clk (or_introl T))
    as (reply & E & Hin).
  exists reply. split; [exact E|].
  rewrite Hn in Hin. rewrite <- intent_of_first_matching in Hi.
  exact (named_replies_hold_name n s clk reply Hm Hi Hin).
Qed.

Lemma later_replies_hold_the_name_witness :
  exists reply,
    generate_response (mkBot (Some (py "Sam")) true (py "chat.log"))
                      (py "tell me a joke") 4
                      (fun _ => mkDatetime 2024 3 5 13 7 9)
    = inr (reply, mkBot (Some (py "Sam")) true (py "chat.log")) /\
    contains (py "Sam") reply = true.
Proof.
  apply (later_replies_hold_the_name
           (mkBot (Some (py "Sam")) true (py "chat.log")) (py "Sam")
           (py "tell me a joke") 4 (fun _ => mkDatetime 2024 3 5 13 7 9)).
  - reflexivity.
  - discriminate.
  - vm_compute. discriminate.
Defined.

(** ** The object over a session *)

(** X9. From any state, the first call is the only one that can change the
    object: the state after a session is the state after its first turn,
    that turn leaves the conversation-started flag or a name set, and no
    turn touches the name of the log file. *)
Theorem only_the_first_turn_changes_the_object :
  forall (self : PyPalChatbot) (t : turn) (rest : list turn),
    exists reply self1,
      generate_response self (turn_input t) (turn_draw t) (turn_clock t)
      = inr (reply, self1) /\
      run self (t :: rest) = inr self1 /\
      (truthy (user_name self1) = true \/ conversation_started self1 = true) /\
      log_filename self1 = log_filename self.
Proof.
  intros self t rest.
  destruct (negb (truthy (user_name self)) && negb (conversation_started self))
    eqn:G.
  - destruct (generate_response_first self (turn_input t) (turn_draw t)
                (turn_clock t) G) as (o & _ & [(_ & reply & E & _)|(_ & E)]).
    + exists reply, (mkBot o true (log_filename self)).
      split; [exact E|]. cbn [run]. rewrite E. cbn [bind snd].
      split; [apply run_after_first; now right|].
      split; [now right|reflexivity].
    + exists no_name_reply, (mkBot (user_name self) true (log_filename self)).
      split; [exact E|]. cbn [run]. rewrite E. cbn [bind snd].
      split; [apply run_after_first; now right|].
      split; [now right|reflexivity].
  - assert (H : truthy (user_name self) = true \/ conversation_started self = true).
    { apply andb_false_iff in G as [G|G]; apply negb_false_iff in G; tauto. }
    destruct (generate_response_after_first self (turn_input t) (turn_draw t)
                (turn_clock t) H) as (reply & E & _).
    exists reply, self. split; [exact E|]. cbn [run]. rewrite E. cbn [bind snd].
    split; [now apply run_after_first|]. split; [exact H|reflexivity].
Qed.

(** ** A single word on the first turn *)

Lemma startswith_chars p s c :
  startswith p s = true -> In c p -> In c s.
Proof.
  intros H Hc. apply startswith_iff in H as [b ->].
  apply in_or_app. now left.
Qed.

Lemma contains_chars p s c : contains p s = true -> In c p -> In c s.
Proof.
  intros H Hc. apply contains_iff in H as (a & b & ->).
  apply in_or_app. right. apply in_or_app. now left.
Qed.

Lemma no_lead_in_inside_a_word w :
  forallb is_alpha w = true -> any_in name_patterns (lower w) = false.
Proof.
  intros Hw. unfold any_in.
  destruct (existsb _ name_patterns) eqn:E; [|reflexivity]. exfalso.
  apply existsb_exists in E as (p & Hp & Hc).
  assert (Hq : exists c, In c p /\ is_alpha c = false).
  { unfold name_patterns in Hp. cbn [In] in Hp.
    repeat (destruct Hp as [<-|Hp];
            [exists " "%char + exists "'"%char; split;
             [cbn; tauto|reflexivity]|]).
    destruct Hp. }
  destruct Hq as (c & Hin & Hc').
  pose proof (contains_chars _ _ _ Hc Hin) as Hl.
  rewrite <- all_alpha_lower in Hw.
  rewrite forallb_forall in Hw. rewrite (Hw c Hl) in Hc'. discriminate.
Qed.

Lemma strip_word w : isalpha w = true -> strip w = w.
Proof.
  intros H. rewrite isalpha_spec in H. apply andb_true_iff in H as [Hne Hal].
  destruct w as [|c w']; [discriminate|].
  unfold strip, strip_by.
  rewrite lstrip_keeps
    by (apply alpha_not_space, (all_alpha_in _ _ Hal); now left).
  apply rstrip_keeps; [discriminate|].
  intros d Hd. exact (alpha_not_space d (all_alpha_in _ _ Hal Hd)).
Qed.

(** X8. On the first turn a message of one alphabetic word is always taken
    for the user's name, whatever the word: no detector is asked, so a
    greeting, a farewell or a time keyword typed as the first message
    becomes the name, in title case. *)
Theorem first_word_becomes_the_name :
  forall (w log : str) (r : nat) (clk : nat -> datetime),
    isalpha w = true ->
    detect_name_in_message w = inr (Some (title w)) /\
    exists reply,
      generate_response (init log) w r clk
      = inr (reply, mkBot (Some (title w)) true log) /\
      In reply (name_responses (Some (title w))).
Proof.
  intros w log r clk Hw.
  assert (Hal : forallb is_alpha w = true).
  { rewrite isalpha_spec in Hw. now apply andb_true_iff in Hw as [_ Hal]. }
  assert (D : detect_name_in_message w = inr (Some (title w))).
  { rewrite (detect_name_no_lead_in w (no_lead_in_inside_a_word w Hal)).
    rewrite (strip_word w Hw). now rewrite (isalpha_short_alpha w Hw). }
  split; [exact D|].
  destruct (generate_response_first (init log) w r clk eq_refl)
    as (o & Ho & [(_ & reply & E & Hin)|(T & _)]);
    rewrite D in Ho; injection Ho as <-.
  - now exists reply.
  - rewrite isalpha_spec in Hw. destruct w; discriminate.
Qed.

Lemma first_word_becomes_the_name_witness :
  detect_greeting (py "hello") = true /\
  detect_name_in_message (py "hello") = inr (Some (title (py "hello"))) /\
  exists reply,
    generate_response (init (py "chat.log")) (py "hello") 0
                      (fun _ => mkDatetime 2024 3 5 13 7 9)
    = inr (reply, mkBot (Some (title (py "hello"))) true (py "chat.log")) /\
    In reply (name_responses (Some (title (py "hello")))).
Proof.
  split; [reflexivity|].
  apply (first_word_becomes_the_name (py "hello") (py "chat.log") 0
           (fun _ => mkDatetime 2024 3 5 13 7 9)).
  reflexivity.
Defined.

(** ** The log only grows *)



(** ** The texts of the clock can be read back *)

(** X11. The time stamp of a log entry determines the second it was taken at:
    two clock readings with the same stamp are the same reading. *)
Theorem timestamp_is_unambiguous :
  forall d1 d2 : datetime,
    valid_datetime d1 -> valid_datetime d2 ->
    timestamp d1 = timestamp d2 -> d1 = d2.
Proof.
  intros [y1 mo1 d1 h1 mi1 s1] [y2 mo2 d2 h2 mi2 s2].
  unfold valid_datetime, timestamp.
  cbn [year month day hour minute second].
  intros (Hy1 & Hmo1 & Hd1 & Hh1 & Hmi1 & Hs1)
         (Hy2 & Hmo2 & Hd2 & Hh2 & Hmi2 & Hs2) H.
  unfold dec4 at 1 2 in H. unfold pad2 at 1 2 3 4 5 6 7 8 9 10 in H.
  cbn [py String.list_ascii_of_string app] in H.
  injection H as Y1 Y2 Y3 Y4 M1 M2 D1 D2 H1 H2 I1 I2 S1 S2.
  assert (Ey : dec4 y1 = dec4 y2) by (unfold dec4; congruence).
  assert (Em : pad2 mo1 = pad2 mo2) by (unfold pad2; congruence).
  assert (Ed : pad2 d1 = pad2 d2) by (unfold pad2; congruence).
  assert (Eh : pad2 h1 = pad2 h2) by (unfold pad2; congruence).
  assert (Ei : pad2 mi1 = pad2 mi2) by (unfold pad2; congruence).
  assert (Es : pad2 s1 = pad2 s2) by (unfold pad2; congruence).
  apply dec4_inj in Ey; [|lia|lia].
  apply pad2_inj in Em; [|lia|lia]. apply pad2_inj in Ed; [|lia|lia].
  apply pad2_inj in Eh; [|lia|lia]. apply pad2_inj in Ei; [|lia|lia].
  apply pad2_inj in Es; [|lia|lia]. now subst.
Qed.

Lemma timestamp_is_unambiguous_witness :
  timestamp (mkDatetime 2024 3 5 13 7 9) <> timestamp (mkDatetime 2024 3 5 13 7 10).
Proof.
  intros H.
  apply timestamp_is_unambiguous in H;
    [discriminate H
    |unfold valid_datetime; cbn [year month day hour minute second]; lia
    |unfold valid_datetime; cbn [year month day hour minute second]; lia].
Defined.

(** X12. The time text of a reply can be read back: two clock readings that
    [get_current_time] prints alike agree on the year, the month, the day,
    the hour of the day and the minute (the 12-hour text with AM or PM
    loses nothing of the 24-hour clock). *)
Theorem time_text_is_unambiguous :
  forall d1 d2 : datetime,
    valid_datetime d1 -> valid_datetime d2 ->
    get_current_time d1 = get_current_time d2 ->
    year d1 = year d2 /\ month d1 = month d2 /\ day d1 = day d2 /\
    hour d1 = hour d2 /\ minute d1 = minute d2.
Proof. exact get_current_time_inj. Qed.

Lemma time_text_is_unambiguous_witness :
  get_current_time (mkDatetime 2024 3 5 1 7 9)
  <> get_current_time (mkDatetime 2024 3 5 13 7 9).
Proof.
  intros H.
  apply time_text_is_unambiguous in H;
    [|unfold valid_datetime; cbn [year month day hour minute second]; lia
     |unfold valid_datetime; cbn [year month day hour minute second]; lia].
  cbn [year month day hour minute second] in H.
  destruct H as (_ & _ & _ & Hh & _). discriminate Hh.
Defined.

(** * The window and the session *)

(** ** Blank input *)

Lemma lstrip_nil p s : lstrip_by p s = [] -> forallb p s = true.
Proof.
  induction s as [|c s IH]; [reflexivity|]. cbn [lstrip_by forallb].
  destruct (p c); [exact IH|discriminate].
Qed.

Lemma strip_nil_iff s : strip s = [] <-> forallb is_space s = true.
Proof.
  split.
  - unfold strip, strip_by, rstrip_by. intros H.
    apply (f_equal (@rev ascii)) in H. rewrite rev_involutive in H.
    cbn [rev] in H. apply lstrip_nil, forallb_rev_true in H.
    rewrite rev_involutive in H.
    destruct (lstrip_by_head is_space s) as [E|(c & t & E & Hc)].
    + now apply lstrip_nil.
    + rewrite E in H. cbn [forallb] in H. rewrite Hc in H. discriminate.
  - intros H. unfold strip, strip_by. now rewrite lstrip_all_blank.
Qed.

Lemma display_message_appends sender message now g :
  display_message sender message now g
  = mkGui (chat_display g ++ formatted_message sender message now) DISABLED
          (entry_text g) (status_label g) (warnings g).
Proof. reflexivity. Qed.

(** X13. A blank input is turned away before the engine: when the input field
    holds nothing but blanks, [handle_send] shows the warning box and
    changes nothing else: the object, the log, the chat display and the
    input field stay as they are. *)
Theorem handle_send_rejects_blank_input :
  forall (self : PyPalChatbot) (e : send_env) (h : Host),
    forallb is_space (entry_text (gui h)) = true ->
    exists g',
      handle_send self e h = inr (self, mkHost (world h) g') /\
      chat_display g' = chat_display (gui h) /\
      chat_state g' = chat_state (gui h) /\
      entry_text g' = entry_text (gui h) /\
      status_label g' = status_label (gui h) /\
      warnings g'
      = warnings (gui h) ++
        [(py "Empty Message", py "Please type a message before sending!")].
Proof.
  intros self e h Hb. unfold handle_send.
  rewrite (proj2 (strip_nil_iff _) Hb). cbn [nonempty negb].
  eexists. split; [reflexivity|]. now repeat split.
Qed.

Lemma handle_send_rejects_blank_input_witness :
  exists g',
    handle_send (init (py "chat.log"))
      (mkSendEnv 0 (mkDatetime 2024 3 5 13 7 9) (mkDatetime 2024 3 5 13 7 9)
                 io_ok (fun _ => mkDatetime 2024 3 5 13 7 9)
                 (mkDatetime 2024 3 5 13 7 9) (mkDatetime 2024 3 5 13 7 9)
                 io_ok (mkDatetime 2024 3 5 13 7 9))
      (mkHost (mkWorld (fun _ => None) [])
              (mkGui (py "shown") DISABLED (py "   ") (py "Ready") []))
    = inr (init (py "chat.log"), mkHost (mkWorld (fun _ => None) []) g') /\
    chat_display g' = py "shown" /\
    entry_text g' = py "   ".
Proof.
  destruct (handle_send_rejects_blank_input (init (py "chat.log"))
      (mkSendEnv 0 (mkDatetime 2024 3 5 13 7 9) (mkDatetime 2024 3 5 13 7 9)
                 io_ok (fun _ => mkDatetime 2024 3 5 13 7 9)
                 (mkDatetime 2024 3 5 13 7 9) (mkDatetime 2024 3 5 13 7 9)
                 io_ok (mkDatetime 2024 3 5 13 7 9))
      (mkHost (mkWorld (fun _ => None) [])
              (mkGui (py "shown") DISABLED (py "   ") (py "Ready") []))
      eq_refl) as (g' & E & Hc & _ & He & _).
  exists g'. split; [exact E|]. split; [exact Hc|exact He].
Defined.

(** ** A message sent *)

Lemma generate_response_total self s r clk :
  exists reply self', generate_response self s r clk = inr (reply, self').
Proof.
  destruct (negb (truthy (user_name self)) && negb (conversation_started self))
    eqn:G.
  - destruct (generate_response_first self s r clk G)
      as (o & _ & [(_ & reply & E & _)|(_ & E)]); eexists _, _; exact E.
  - destruct (generate_response_started self s r clk G) as (reply & E & _).
    eexists _, _; exact E.
Qed.

(** The steps of [handle_send] on an input that is not blank. *)
Lemma handle_send_steps self e h :
  forallb is_space (entry_text (gui h)) = false ->
  let message := strip (entry_text (gui h)) in
  exists reply self' w1 w2,
    message <> [] /\
    log_message self (display_name self) message (now_log_user e)
                (io_log_user e) (world h) = inr (self, w1) /\
    generate_response self message (send_draw e) (engine_clock e)
    = inr (reply, self') /\
    log_message self' bot_name reply (now_log_bot e) (io_log_bot e) w1
    = inr (self', w2) /\
    handle_send self e h
    = inr (self',
           mkHost w2
             (mkGui (chat_display (gui h) ++
                     formatted_message (display_name self) message
                                       (now_display_user e) ++
                     formatted_message bot_name reply (now_display_bot e))
                    DISABLED []
                    (py "Last message sent at " ++
                     clock_text_seconds (now_status e))
                    (warnings (gui h)))).
Proof.
  intros Hb message.
  assert (Hne : message <> []).
  { intros E. apply strip_nil_iff in E. congruence. }
  destruct (log_message_total self (display_name self) message
              (now_log_user e) (io_log_user e) (world h)) as [w1 E1].
  destruct (generate_response_total self message (send_draw e)
              (engine_clock e)) as (reply & self' & E2).
  destruct (log_message_total self' bot_name reply (now_log_bot e)
              (io_log_bot e) w1) as [w2 E3].
  exists reply, self', w1, w2.
  split; [exact Hne|]. split; [exact E1|]. split; [exact E2|].
  split; [exact E3|].
  unfold handle_send. fold message.
  destruct message as [|c m]; [congruence|]. cbn [nonempty negb].
  rewrite E1. cbn [bind]. rewrite E2. cbn [bind]. rewrite E3. cbn [bind].
  rewrite !display_message_appends. cbn [chat_display warnings].
  now rewrite <- app_assoc.
Qed.

Lemma generate_response_log_filename self s r clk reply self' :
  generate_response self s r clk = inr (reply, self') ->
  log_filename self' = log_filename self.
Proof.
  intros E.
  destruct (negb (truthy (user_name self)) && negb (conversation_started self))
    eqn:G.
  - destruct (generate_response_first self s r clk G)
      as (o & _ & [(_ & reply' & E' & _)|(_ & E')]);
      rewrite E' in E; now injection E as _ <-.
  - destruct (generate_response_started self s r clk G) as (reply' & E' & _).
    rewrite E' in E. now injection E as _ <-.
Qed.

Lemma file_text_append path text w :
  file_text (append_file path text w) path = file_text w path ++ text.
Proof.
  unfold file_text at 1. cbn [append_file fs]. now rewrite str_eqb_refl.
Qed.

Lemma log_message_grows self sender message now io w w' :
  log_message self sender message now io w = inr (self, w') ->
  exists added,
    file_text w' (log_filename self) = file_text w (log_filename self) ++ added.
Proof.
  unfold log_message.
  destruct io as [|msg|msg k]; cbn [open_append_write]; intros E;
    injection E as <-.
  - eexists. apply file_text_append.
  - exists []. unfold file_text. cbn [print fs]. now rewrite app_nil_r.
  - eexists. unfold print. apply file_text_append.
Qed.

(** X14. A message that is not blank is answered, whatever happens to the log:
    [handle_send] raises no exception, hands the engine the trimmed
    message, which is not empty, and leaves the object as the engine
    returns it; the chat display grows by the user's line and the bot's
    line and is read-only again, the input field is emptied, and the log
    file keeps the text it had. *)
Theorem handle_send_answers :
  forall (self : PyPalChatbot) (e : send_env) (h : Host),
    forallb is_space (entry_text (gui h)) = false ->
    exists reply self' h' added,
      handle_send self e h = inr (self', h') /\
      strip (entry_text (gui h)) <> [] /\
      generate_response self (strip (entry_text (gui h))) (send_draw e)
                        (engine_clock e) = inr (reply, self') /\
      chat_display (gui h')
      = chat_display (gui h) ++
        formatted_message (display_name self) (strip (entry_text (gui h)))
                          (now_display_user e) ++
        formatted_message bot_name reply (now_display_bot e) /\
      chat_state (gui h') = DISABLED /\
      entry_text (gui h') = [] /\
      warnings (gui h') = warnings (gui h) /\
      file_text (world h') (log_filename self)
      = file_text (world h) (log_filename self) ++ added.
Proof.
  intros self e h Hb.
  destruct (handle_send_steps self e h Hb)
    as (reply & self' & w1 & w2 & Hne & E1 & E2 & E3 & E).
  destruct (log_message_grows _ _ _ _ _ _ _ E1) as [a1 G1].
  destruct (log_message_grows _ _ _ _ _ _ _ E3) as [a2 G2].
  rewrite (generate_response_log_filename _ _ _ _ _ _ E2) in G2.
  eexists reply, self', _, (a1 ++ a2). split; [exact E|].
  split; [exact Hne|]. split; [exact E2|].
  cbn [gui world chat_display chat_state entry_text warnings].
  repeat split. now rewrite G2, G1, app_assoc.
Qed.

Lemma handle_send_answers_witness :
  exists reply self' h' added,
    handle_send (init (py "chat.log"))
      (mkSendEnv 0 (mkDatetime 2024 3 5 13 7 9) (mkDatetime 2024 3 5 13 7 9)
                 (io_open_error (py "denied"))
                 (fun _ => mkDatetime 2024 3 5 13 7 9)
                 (mkDatetime 2024 3 5 13 7 9) (mkDatetime 2024 3 5 13 7 9)
                 (io_write_error (py "disk full") 4)
                 (mkDatetime 2024 3 5 13 7 9))
      (mkHost (mkWorld (fun _ => None) [])
              (mkGui [] DISABLED (py " Sam ") (py "Ready") []))
    = inr (self', h') /\
    generate_response (init (py "chat.log")) (py "Sam") 0
                      (fun _ => mkDatetime 2024 3 5 13 7 9)
    = inr (reply, self') /\
    entry_text (gui h') = [] /\
    file_text (world h') (py "chat.log") = [] ++ added.
Proof.
  destruct (handle_send_answers (init (py "chat.log"))
      (mkSendEnv 0 (mkDatetime 2024 3 5 13 7 9) (mkDatetime 2024 3 5 13 7 9)
                 (io_open_error (py "denied"))
                 (fun _ => mkDatetime 2024 3 5 13 7 9)
                 (mkDatetime 2024 3 5 13 7 9) (mkDatetime 2024 3 5 13 7 9)
                 (io_write_error (py "disk full") 4)
                 (mkDatetime 2024 3 5 13 7 9))
      (mkHost (mkWorld (fun _ => None) [])
              (mkGui [] DISABLED (py " Sam ") (py "Ready") []))
      eq_refl)
    as (reply & self' & h' & added & E & _ & E2 & _ & _ & He & _ & Hf).
  exists reply, self', h', added.
  split; [exact E|]. split; [exact E2|]. split; [exact He|exact Hf].
Defined.

(** X15. When both writes succeed, one [handle_send] adds two entries to the
    log file, in this order: the user's message under the label the user
    had before the turn (the stored name, or ["You"]), then the bot's
    reply under ["PyPal"]; nothing is printed. *)
Theorem handle_send_logs_both_messages :
  forall (self : PyPalChatbot) (e : send_env) (h : Host),
    forallb is_space (entry_text (gui h)) = false ->
    io_log_user e = io_ok ->
    io_log_bot e = io_ok ->
    exists reply self' h',
      handle_send self e h = inr (self', h') /\
      generate_response self (strip (entry_text (gui h))) (send_draw e)
                        (engine_clock e) = inr (reply, self') /\
      file_text (world h') (log_filename self)
      = file_text (world h) (log_filename self) ++
        log_entry (now_log_user e) (display_name self)
                  (strip (entry_text (gui h))) ++
        log_entry (now_log_bot e) bot_name reply /\
      stdout (world h') = stdout (world h).
Proof.
  intros self e h Hb Hu Hbot.
  destruct (handle_send_steps self e h Hb)
    as (reply & self' & w1 & w2 & Hne & E1 & E2 & E3 & E).
  rewrite Hu in E1. rewrite Hbot in E3.
  unfold log_message in E1, E3. cbn [open_append_write ret] in E1, E3.
  injection E1 as <-. injection E3 as <-.
  eexists reply, self', _. split; [exact E|]. split; [exact E2|].
  cbn [world]. rewrite (generate_response_log_filename _ _ _ _ _ _ E2).
  split; [|reflexivity].
  now rewrite !file_text_append, app_assoc.
Qed.

Lemma handle_send_logs_both_messages_witness :
  exists reply self' h',
    handle_send (init (py "chat.log"))
      (mkSendEnv 0 (mkDatetime 2024 3 5 13 7 9) (mkDatetime 2024 3 5 13 7 9)
                 io_ok (fun _ => mkDatetime 2024 3 5 13 7 9)
                 (mkDatetime 2024 3 5 13 7 9) (mkDatetime 2024 3 5 13 7 10)
                 io_ok (mkDatetime 2024 3 5 13 7 10))
      (mkHost (mkWorld (fun _ => None) [])
              (mkGui [] DISABLED (py " Sam ") (py "Ready") []))
    = inr (self', h') /\
    file_text (world h') (py "chat.log")
    = [] ++ log_entry (mkDatetime 2024 3 5 13 7 9) (py "You") (py "Sam") ++
      log_entry (mkDatetime 2024 3 5 13 7 10) bot_name reply.
Proof.
  destruct (handle_send_logs_both_messages (init (py "chat.log"))
      (mkSendEnv 0 (mkDatetime 2024 3 5 13 7 9) (mkDatetime 2024 3 5 13 7 9)
                 io_ok (fun _ => mkDatetime 2024 3 5 13 7 9)
                 (mkDatetime 2024 3 5 13 7 9) (mkDatetime 2024 3 5 13 7 10)
                 io_ok (mkDatetime 2024 3 5 13 7 10))
      (mkHost (mkWorld (fun _ => None) [])
              (mkGui [] DISABLED (py " Sam ") (py "Ready") []))
      eq_refl eq_refl eq_refl)
    as (reply & self' & h' & E & _ & Hf & _).
  exists reply, self', h'. split; [exact E|exact Hf].
Defined.

(** ** The sender labels *)

Lemma generate_response_name_ok self s r clk reply self' :
  name_ok self ->
  generate_response self s r clk = inr (reply, self') -> name_ok self'.
Proof.
  intros Hok E.
  destruct (negb (truthy (user_name self)) && negb (conversation_started self))
    eqn:G.
  - destruct (generate_response_first self s r clk G)
      as (o & Ho & [(T & reply' & E' & _)|(T & E')]);
      rewrite E' in E; injection E as _ <-; [|exact Hok].
    unfold name_ok. cbn [user_name].
    destruct o as [n|]; [|exact I]. exact (detect_name_valid s n Ho).
  - destruct (generate_response_started self s r clk G) as (reply' & E' & _).
    rewrite E' in E. now injection E as _ <-.
Qed.

Lemma run_name_ok self turns self' :
  name_ok self -> run self turns = inr self' -> name_ok self'.
Proof.
  revert self. induction turns as [|t turns IH]; intros self Hok E.
  - cbn [run] in E. now injection E as <-.
  - cbn [run] in E.
    destruct (generate_response self (turn_input t) (turn_draw t)
                (turn_clock t)) as [e|[reply self1]] eqn:E1; [discriminate|].
    cbn [bind snd] in E.
    exact (IH self1 (generate_response_name_ok _ _ _ _ _ _ Hok E1) E).
Qed.

(** X16. In every session the user's label differs from the bot's: the label
    under which the user's messages are displayed and logged is never
    ["PyPal"] nor ["SYSTEM"], so the user's lines carry the person icon
    and never the robot, whatever name the user gave. *)
Theorem user_label_is_never_the_bot :
  forall (log : str) (turns : list turn) (self : PyPalChatbot)
         (message : str) (now : datetime),
    run (init log) turns = inr self ->
    display_name self <> bot_name /\
    display_name self <> py "SYSTEM" /\
    formatted_message (display_name self) message now
    = py "👤 " ++ display_name self ++ py " [" ++ clock_text now ++ py "]: " ++
      message ++ [newline; newline].
Proof.
  intros log turns self message now Hrun.
  pose proof (run_name_ok (init log) turns self I Hrun) as Hok.
  assert (H1 : display_name self <> bot_name).
  { unfold display_name, name_ok in *.
    destruct (user_name self) as [n|]; cbn [truthy name_text].
    - destruct (nonempty n); [|discriminate].
      intros ->. vm_compute in Hok. discriminate.
    - discriminate. }
  split; [exact H1|]. split.
  - unfold display_name, name_ok in *.
    destruct (user_name self) as [n|]; cbn [truthy name_text].
    + destruct (nonempty n); [|discriminate].
      intros ->. vm_compute in Hok. discriminate.
    + discriminate.
  - unfold formatted_message. now rewrite (str_eqb_neq _ _ H1).
Qed.

Lemma user_label_is_never_the_bot_witness :
  display_name (mkBot (Some (py "Pypal")) true (py "chat.log")) <> bot_name.
Proof.
  apply (user_label_is_never_the_bot (py "chat.log")
           [mkTurn (py "PyPal") 0 (fun _ => mkDatetime 2024 3 5 13 7 9)]
           (mkBot (Some (py "Pypal")) true (py "chat.log"))
           [] (mkDatetime 2024 3 5 13 7 9)).
  reflexivity.
Defined.

(** ** The log file of the day *)

Lemma date_text_inj d1 d2 :
  valid_datetime d1 -> valid_datetime d2 ->
  date_text d1 = date_text d2 ->
  year d1 = year d2 /\ month d1 = month d2 /\ day d1 = day d2.
Proof.
  destruct d1 as [y1 mo1 d1 h1 mi1 s1], d2 as [y2 mo2 d2 h2 mi2 s2].
  unfold valid_datetime, date_text. cbn [year month day hour minute second].
  intros (Hy1 & Hmo1 & Hd1 & _) (Hy2 & Hmo2 & Hd2 & _) H.
  unfold dec4, pad2 in H. cbn [py String.list_ascii_of_string app] in H.
  injection H as Y1 Y2 Y3 Y4 M1 M2 D1 D2.
  assert (Ey : dec4 y1 = dec4 y2) by (unfold dec4; congruence).
  assert (Em : pad2 mo1 = pad2 mo2) by (unfold pad2; congruence).
  assert (Ed : pad2 d1 = pad2 d2) by (unfold pad2; congruence).
  apply dec4_inj in Ey; [|lia|lia].
  apply pad2_inj in Em; [|lia|lia]. apply pad2_inj in Ed; [|lia|lia].
  now repeat split.
Qed.

(** X17. [setup_logging] stops the start only when the log directory cannot be
    made: that error goes up to the caller, while a failed write of the
    first entry does not.  Otherwise it returns, with the log file named
    after the day, [chat_logs/pypal_conversation_<YYYY-MM-DD>.log], the
    name and the flag of the object untouched, and the text the file had
    kept. *)
Theorem setup_logging_outcomes :
  forall (self : PyPalChatbot) (dir_exists : bool) (makedirs : option str)
         (today now : datetime) (io : io_outcome) (w : World),
    (forall msg,
        dir_exists = false -> makedirs = Some msg ->
        setup_logging self dir_exists makedirs today now io w
        = inl (OSError msg)) /\
    (dir_exists = true \/ makedirs = None ->
     exists w' added,
       let path := py "chat_logs/pypal_conversation_" ++ date_text today ++
                   py ".log" in
       setup_logging self dir_exists makedirs today now io w
       = inr (mkBot (user_name self) (conversation_started self) path, w') /\
       file_text w' path = file_text w path ++ added /\
       (io = io_ok ->
        added = log_entry now (py "SYSTEM")
                          (py "PyPal chatbot session started"))).
Proof.
  intros self dir_exists makedirs today now io w. split.
  - intros msg -> ->. reflexivity.
  - intros Hok.
    set (path := py "chat_logs/pypal_conversation_" ++ date_text today ++
                 py ".log").
    set (self1 := mkBot (user_name self) (conversation_started self) path).
    assert (E : setup_logging self dir_exists makedirs today now io w
                = log_message self1 (py "SYSTEM")
                              (bot_name ++ py " chatbot session started")
                              now io w).
    { unfold setup_logging. destruct Hok as [-> | ->]; [reflexivity|].
      now destruct dir_exists. }
    rewrite E. unfold log_message.
    destruct io as [|msg|msg k]; cbn [open_append_write log_filename self1].
    + eexists _, _. split; [reflexivity|].
      split; [apply file_text_append|reflexivity].
    + exists (print (py "Error logging message: " ++ msg) w), [].
      split; [reflexivity|]. unfold file_text. cbn [print fs].
      split; [now rewrite app_nil_r|discriminate].
    + eexists _, _. split; [reflexivity|]. unfold print.
      split; [apply file_text_append|discriminate].
Qed.

Lemma setup_logging_outcomes_witness :
  setup_logging (mkBot None false []) false (Some (py "read-only file system"))
                (mkDatetime 2024 3 5 13 7 9) (mkDatetime 2024 3 5 13 7 9)
                io_ok (mkWorld (fun _ => None) [])
  = inl (OSError (py "read-only file system")).
Proof.
  apply (proj1 (setup_logging_outcomes (mkBot None false []) false
                  (Some (py "read-only file system"))
                  (mkDatetime 2024 3 5 13 7 9) (mkDatetime 2024 3 5 13 7 9)
                  io_ok (mkWorld (fun _ => None) []))); reflexivity.
Defined.

Lemma setup_logging_steps self dir_exists today now io w :
  exists w',
    setup_logging self dir_exists None today now io w
    = inr (mkBot (user_name self) (conversation_started self)
                 (py "chat_logs/pypal_conversation_" ++ date_text today ++
                  py ".log"), w').
Proof.
  unfold setup_logging.
  replace (if negb dir_exists then ret tt else ret tt) with (@ret unit tt)
    by now destruct dir_exists.
  cbn [bind ret]. apply log_message_total.
Qed.

(** X18. Two sessions write to the same log file exactly when they start on
    the same day: the file name [setup_logging] chooses depends on the
    year, the month and the day of its clock reading and on nothing else,
    and different days give different names. *)
Theorem log_file_of_the_day :
  forall (self1 self2 : PyPalChatbot) (dir1 dir2 : bool)
         (today1 now1 today2 now2 : datetime) (io1 io2 : io_outcome)
         (w1 w2 w1' w2' : World) (bot1 bot2 : PyPalChatbot),
    valid_datetime today1 -> valid_datetime today2 ->
    setup_logging self1 dir1 None today1 now1 io1 w1 = inr (bot1, w1') ->
    setup_logging self2 dir2 None today2 now2 io2 w2 = inr (bot2, w2') ->
    (log_filename bot1 = log_filename bot2 <->
     year today1 = year today2 /\ month today1 = month today2 /\
     day today1 = day today2).
Proof.
  intros self1 self2 x1 x2 t1 n1 t2 n2 io1 io2 w1 w2 w1' w2' bot1 bot2
    V1 V2 E1 E2.
  destruct (setup_logging_steps self1 x1 t1 n1 io1 w1) as (v1 & F1).
  destruct (setup_logging_steps self2 x2 t2 n2 io2 w2) as (v2 & F2).
  rewrite F1 in E1. rewrite F2 in E2.
  injection E1 as <- _. injection E2 as <- _. cbn [log_filename].
  split.
  - intros H. apply date_text_inj; [exact V1|exact V2|].
    injection H as Y1 Y2 Y3 Y4 M1 M2 D1 D2.
    unfold date_text, dec4, pad2.
    cbn [py String.list_ascii_of_string app]. congruence.
  - intros (Hy & Hm & Hd). unfold date_text. now rewrite Hy, Hm, Hd.
Qed.

Lemma log_file_of_the_day_witness :
  log_filename (mkBot None false
                  (py "chat_logs/pypal_conversation_2024-03-05.log"))
  = log_filename (mkBot None false
                    (py "chat_logs/pypal_conversation_2024-03-05.log")) <->
  year (mkDatetime 2024 3 5 9 0 0) = year (mkDatetime 2024 3 5 23 59 59) /\
  month (mkDatetime 2024 3 5 9 0 0) = month (mkDatetime 2024 3 5 23 59 59) /\
  day (mkDatetime 2024 3 5 9 0 0) = day (mkDatetime 2024 3 5 23 59 59).
Proof.
  apply (log_file_of_the_day (mkBot None false []) (mkBot None false [])
           true true
           (mkDatetime 2024 3 5 9 0 0) (mkDatetime 2024 3 5 9 0 0)
           (mkDatetime 2024 3 5 23 59 59) (mkDatetime 2024 3 5 23 59 59)
           io_ok io_ok (mkWorld (fun _ => None) []) (mkWorld (fun _ => None) [])
           (append_file (py "chat_logs/pypal_conversation_2024-03-05.log")
              (log_entry (mkDatetime 2024 3 5 9 0 0) (py "SYSTEM")
                 (py "PyPal chatbot session started"))
              (mkWorld (fun _ => None) []))
           (append_file (py "chat_logs/pypal_conversation_2024-03-05.log")
              (log_entry (mkDatetime 2024 3 5 23 59 59) (py "SYSTEM")
                 (py "PyPal chatbot session started"))
              (mkWorld (fun _ => None) []))).
  - unfold valid_datetime; cbn [year month day hour minute second]; lia.
  - unfold valid_datetime; cbn [year month day hour minute second]; lia.
  - reflexivity.
  - reflexivity.
Defined.

(** ** The string functions on examples *)

Example split_example :
  split (py "  a b	c  ") = [py "a"; py "b"; py "c"].
Proof. reflexivity. Qed.

Example title_example :
  title (py "heLLo wORLD o'neil") = py "Hello World O'Neil".
Proof. reflexivity. Qed.

Example find_example :
  find (py "i'm") (py "hey i'm bob") = 4%Z /\
  find (py "zz") (py "hey i'm bob") = (-1)%Z.
Proof. split; reflexivity. Qed.

Example strip_example :
  strip (py "  a b  ") = py "a b" /\ strip_chars (py ".,!?") (py "!bob?!") = py "bob".
Proof. split; reflexivity. Qed.
